(** * weather.py: daily temperatures from Open-Meteo and their statistics

    A shallow embedding of [src/weather.py].  Python values that come out of
    [resp.json()] are an inductive type of dynamically typed objects,
    exceptions are the left summand of a result type, Python's [float] is the
    kernel's binary64 [float], and everything the script reads from outside
    (HTTP answers, the terminal) comes from an explicit [World]. *)

From Stdlib Require Import ZArith List String Ascii Bool Lia Floats DecimalString.
Import ListNotations.

Local Open Scope string_scope.
Local Open Scope list_scope.
Local Open Scope Z_scope.

(** ** Exceptions and results *)

Inductive PyExc : Type :=
| RuntimeError (msg : string)
| TypeError
| AttributeError
| KeyError
| IndexError
| ValueError
| OverflowError
| ZeroDivisionError
| EOFError
| JSONDecodeError
| RequestException (msg : string).

Definition Res (A : Type) : Type := (PyExc + A)%type.

Definition Ok {A : Type} (a : A) : Res A := inr a.
Definition Raise {A : Type} (e : PyExc) : Res A := inl e.

Definition bind {A B : Type} (r : Res A) (k : A -> Res B) : Res B :=
  match r with
  | inl e => inl e
  | inr a => k a
  end.

Notation "x <- r ;; k" := (bind r (fun x => k))
  (at level 61, r at next level, right associativity).

(** ** Python objects, as [json.loads] builds them *)

#[warnings="-register-all"]
Inductive pyobj : Type :=
| PNone
| PBool (b : bool)
| PInt (z : Z)
| PFloat (f : float)
| PStr (s : string)
| PList (l : list pyobj)
| PDict (d : list (string * pyobj)).

(** [bool(v)]: what [not v] negates. *)
Definition truthy (v : pyobj) : bool :=
  match v with
  | PNone => false
  | PBool b => b
  | PInt z => negb (z =? 0)
  | PFloat f => negb (f =? 0)%float
  | PStr s => negb (String.eqb s "")
  | PList l => match l with [] => false | _ :: _ => true end
  | PDict d => match d with [] => false | _ :: _ => true end
  end.

(** A dict is kept as its items in insertion order. *)
Fixpoint dict_lookup (d : list (string * pyobj)) (k : string) : option pyobj :=
  match d with
  | [] => None
  | (k', v) :: d' => if String.eqb k k' then Some v else dict_lookup d' k
  end.

(** [v.get(k, default)]: only a dict has the method. *)
Definition py_get (v : pyobj) (k : string) (default : pyobj) : Res pyobj :=
  match v with
  | PDict d => Ok (match dict_lookup d k with Some x => x | None => default end)
  | _ => Raise AttributeError
  end.

Fixpoint chars (s : string) : list pyobj :=
  match s with
  | EmptyString => []
  | String c s' => PStr (String c EmptyString) :: chars s'
  end.

(** What [iter(v)] walks through: list items, the characters of a str, the
    keys of a dict. *)
Definition py_iter (v : pyobj) : Res (list pyobj) :=
  match v with
  | PList l => Ok l
  | PStr s => Ok (chars s)
  | PDict d => Ok (map (fun kv => PStr (fst kv)) d)
  | _ => Raise TypeError
  end.

(** ** Numbers *)

Inductive number : Type :=
| NInt (z : Z)
| NFloat (f : float).

(** [bool] is a subclass of [int]. *)
Definition as_number (v : pyobj) : option number :=
  match v with
  | PBool b => Some (NInt (Z.b2z b))
  | PInt z => Some (NInt z)
  | PFloat f => Some (NFloat f)
  | _ => None
  end.

(** The binary64 value nearest to an integer (ties to even). *)
Definition Z2float (z : Z) : float :=
  SF2Prim (binary_normalize prec emax z 0 false).

(** int to float: an int beyond the range of a double raises. *)
Definition float_of_int (z : Z) : Res float :=
  let f := Z2float z in
  if is_infinity f then Raise OverflowError else Ok f.

Definition to_float (n : number) : Res float :=
  match n with
  | NInt z => float_of_int z
  | NFloat f => Ok f
  end.

(** [a + b] *)
Definition py_add (a b : pyobj) : Res pyobj :=
  match as_number a, as_number b with
  | Some (NInt x), Some (NInt y) => Ok (PInt (x + y))
  | Some x, Some y =>
      fx <- to_float x ;;
      fy <- to_float y ;;
      Ok (PFloat (fx + fy)%float)
  | _, _ =>
      match a, b with
      | PStr s, PStr t => Ok (PStr (s ++ t))
      | PList l, PList m => Ok (PList (l ++ m))
      | _, _ => Raise TypeError
      end
  end.

(** [a / d] for a float [d] *)
Definition py_truediv (a : pyobj) (d : float) : Res float :=
  match as_number a with
  | Some n =>
      x <- to_float n ;;
      if (d =? 0)%float then Raise ZeroDivisionError else Ok (x / d)%float
  | None => Raise TypeError
  end.

(** ** The outside world *)

Inductive Param : Type :=
| ParFloat (f : float)
| ParInt (z : Z)
| ParStr (s : string).

Record Response : Type := mkResponse {
  status_code : Z;
  text : string;
  json : Res pyobj   (* resp.json(): the parsed body, or the decoder's exception *)
}.

Record World : Type := mkWorld {
  (* requests.get(url, params=..., timeout=10); the first argument tells
     whether requests_cache has been installed by then *)
  requests_get : bool -> string -> list (string * Param) -> Res Response;
  (* input(prompt) *)
  input : string -> Res string;
  (* float(s) for a str s: Python's parser of decimal literals is not
     modelled, its result is read from here (None is a ValueError) *)
  float_of_str : string -> option float;
  (* s.strip() for a str s: what counts as white space is settled by
     Python's Unicode tables, which are not modelled; the stripped string
     is read from here *)
  str_strip : string -> string
}.

Definition URL : string := "https://api.open-meteo.com/v1/forecast".
Definition GEOCODE_URL : string := "https://geocoding-api.open-meteo.com/v1/search".

(** [str(n)] for an int *)
Definition str_of_int (z : Z) : string := NilZero.string_of_int (Z.to_int z).

(** ** [fetch_daily_mean_temperature] *)

Definition weather_params (lat lon : float) (start end_ : string)
  : list (string * Param) :=
  [ ("latitude", ParFloat lat);
    ("longitude", ParFloat lon);
    ("start_date", ParStr start);
    ("end_date", ParStr end_);
    ("daily", ParStr "temperature_2m_max,temperature_2m_min");
    ("timezone", ParStr "UTC") ].

Definition request_failed (resp : Response) : PyExc :=
  RuntimeError ("Open-Meteo request failed: "
                ++ str_of_int (status_code resp) ++ " " ++ text resp).

Definition no_daily_data : PyExc :=
  RuntimeError "No daily temperature data returned from Open-Meteo".

(** [float((mx + mn) / 2.0)]; [float] of a float is that float. *)
Definition daily_mean (mx mn : pyobj) : Res float :=
  s <- py_add mx mn ;;
  py_truediv s 2%float.

(** [[float((mx + mn) / 2.0) for mx, mn in zip(tmax, tmin)]]: [zip] stops at
    the end of the shorter sequence. *)
Fixpoint zip_means (tmax tmin : list pyobj) : Res (list float) :=
  match tmax, tmin with
  | mx :: tmax', mn :: tmin' =>
      m <- daily_mean mx mn ;;
      ms <- zip_means tmax' tmin' ;;
      Ok (m :: ms)
  | _, _ => Ok []
  end.

Definition FetchResult : Type :=
  (list float * list pyobj * list pyobj * list pyobj)%type.

(** Lines 53-59: the check of the three series, the means, the tuple.
    [zip] takes an iterator of [tmax], then of [tmin]; [list(tmax)] and
    [list(tmin)] walk the same objects again. *)
Definition daily_series (tmax tmin dates : pyobj) : Res FetchResult :=
  if negb (truthy tmax) || negb (truthy tmin) || negb (truthy dates)
  then Raise no_daily_data
  else
    xs <- py_iter tmax ;;
    ys <- py_iter tmin ;;
    daily_means <- zip_means xs ys ;;
    ldates <- py_iter dates ;;
    Ok (daily_means, xs, ys, ldates).

Definition fetch_daily_mean_temperature (w : World) (lat lon : float)
    (start end_ : string) (use_cache : bool) : Res FetchResult :=
  resp <- requests_get w use_cache URL (weather_params lat lon start end_) ;;
  if negb (status_code resp =? 200) then Raise (request_failed resp)
  else
    data <- json resp ;;
    daily <- py_get data "daily" (PDict []) ;;
    tmax <- py_get daily "temperature_2m_max" PNone ;;
    tmin <- py_get daily "temperature_2m_min" PNone ;;
    dates <- py_get daily "time" PNone ;;
    daily_series tmax tmin dates.

(** ** [geocode_city] *)

(** [v[0]] *)
Definition py_first (v : pyobj) : Res pyobj :=
  match v with
  | PList (x :: _) => Ok x
  | PList [] => Raise IndexError
  | PStr (String c _) => Ok (PStr (String c EmptyString))
  | PStr EmptyString => Raise IndexError
  | PDict _ => Raise KeyError
  | _ => Raise TypeError
  end.

(** [v[k]] for a str key [k] *)
Definition py_item (v : pyobj) (k : string) : Res pyobj :=
  match v with
  | PDict d => match dict_lookup d k with Some x => Ok x | None => Raise KeyError end
  | _ => Raise TypeError
  end.

(** [float(v)] *)
Definition py_float (w : World) (v : pyobj) : Res float :=
  match v with
  | PStr s => match float_of_str w s with Some f => Ok f | None => Raise ValueError end
  | _ => match as_number v with Some n => to_float n | None => Raise TypeError end
  end.

Definition geocode_city (w : World) (city : string) : Res (float * float) :=
  resp <- requests_get w false GEOCODE_URL [("name", ParStr city); ("count", ParInt 1)] ;;
  if negb (status_code resp =? 200)
  then Raise (RuntimeError ("Geocoding request failed: "
                            ++ str_of_int (status_code resp) ++ " " ++ text resp))
  else
    data <- json resp ;;
    results <- py_get data "results" PNone ;;
    if negb (truthy results)
    then Raise (RuntimeError ("No geocoding results for city: " ++ city))
    else
      loc <- py_first results ;;
      vlat <- py_item loc "latitude" ;;
      flat <- py_float w vlat ;;
      vlon <- py_item loc "longitude" ;;
      flon <- py_float w vlon ;;
      Ok (flat, flon).

(** ** NumPy reductions over a float64 array *)

Module np.

Local Open Scope float_scope.

(** One step of the reductions [np.max] and [np.min]: [a] is the running
    result, [b] the next element.  The next element is taken when it is a
    NaN or at least as large (as small); so a NaN, once met, stays, and of
    two equal elements, which differ only for the two zeros, the later one
    is kept. *)
Definition maximum (a b : float) : float :=
  if (a <=? b) || is_nan b then b else a.

Definition minimum (a b : float) : float :=
  if (b <=? a) || is_nan b then b else a.

(** [np.max(arr)], [np.min(arr)]: a reduction without identity, it starts
    from the first element and raises on an empty array. *)
Definition max (arr : list float) : Res float :=
  match arr with
  | [] => Raise ValueError
  | x :: xs => Ok (fold_left maximum xs x)
  end.

Definition min (arr : list float) : Res float :=
  match arr with
  | [] => Raise ValueError
  | x :: xs => Ok (fold_left minimum xs x)
  end.

(** [np.add.reduce] sums pairwise.  Fewer than 8 elements are added one
    after the other; up to 128 elements go through eight running sums
    that are combined as a tree; a longer block is split in two (the left
    part a multiple of 8) and the halves are summed the same way. *)
Definition lanes : Type :=
  (float * float * float * float * float * float * float * float)%type.

Fixpoint add_lanes (r : lanes) (a : list float) {struct a} : lanes * list float :=
  match a with
  | a0 :: a1 :: a2 :: a3 :: a4 :: a5 :: a6 :: a7 :: a' =>
      let '(r0, r1, r2, r3, r4, r5, r6, r7) := r in
      add_lanes (r0 + a0, r1 + a1, r2 + a2, r3 + a3,
                 r4 + a4, r5 + a5, r6 + a6, r7 + a7) a'
  | _ => (r, a)
  end.

Definition sum_block (a : list float) : float :=
  match a with
  | a0 :: a1 :: a2 :: a3 :: a4 :: a5 :: a6 :: a7 :: a' =>
      let '((r0, r1, r2, r3, r4, r5, r6, r7), rest) :=
        add_lanes (a0, a1, a2, a3, a4, a5, a6, a7) a' in
      fold_left add rest (((r0 + r1) + (r2 + r3)) + ((r4 + r5) + (r6 + r7)))
  | _ => fold_left add a 0
  end.

Fixpoint pairwise_sum (depth : nat) (a : list float) : float :=
  let n := List.length a in
  if (n <=? 128)%nat then sum_block a
  else
    match depth with
    | O => sum_block a
    | S depth' =>
        let n2 := (n / 2 - (n / 2) mod 8)%nat in
        pairwise_sum depth' (firstn n2 a) + pairwise_sum depth' (skipn n2 a)
    end.

(** [np.sum(arr)]: the accumulator starts at the identity 0 and takes the
    pairwise sum of the whole array.  A block is at least halved at each
    split, so [List.length arr] levels are enough ([pairwise_sum_depth]
    below). *)
Definition sum (arr : list float) : float :=
  0 + pairwise_sum (List.length arr) arr.

(** [np.mean(arr)]: the sum divided by the number of elements. *)
Definition mean (arr : list float) : float :=
  sum arr / Z2float (Z.of_nat (List.length arr)).

(** [(arr > 20).sum()]: the number of [True] in a boolean array. *)
Definition count_true (mask : list bool) : Z :=
  fold_left (fun acc b => (acc + Z.b2z b)%Z) mask 0%Z.

End np.

(** ** [compute_stats] *)

Record Stats : Type := mkStats {
  highest_c : float;
  lowest_c : float;
  average_c : float;
  fahrenheit : list float;
  days_above_20c : Z;
  count : Z
}.

Definition compute_stats (temps_celsius : list float) : Res Stats :=
  let arr := temps_celsius in
  hi <- np.max arr ;;
  lo <- np.min arr ;;
  Ok {| highest_c := hi;
        lowest_c := lo;
        average_c := np.mean arr;
        fahrenheit := map (fun x => (x * 9 / 5) + 32)%float arr;
        days_above_20c := np.count_true (map (fun x => 20 <? x)%float arr);
        count := Z.of_nat (List.length arr) |}.

(** ** [main] *)

(** The namespace [parse_args] returns.  [--start] and [--end] already carry
    their defaults (today and today + 6 days). *)
Record Args : Type := mkArgs {
  args_lat : option float;
  args_lon : option float;
  args_city : option string;
  args_start : string;
  args_end : string;
  args_no_cache : bool
}.

(** What a [print] receives.  Text conversion and the two-decimal rounding
    are display only: the values are kept as they are passed. *)
#[warnings="-register-all"]
Inductive Printed : Type :=
| PrStr (s : string)
| PrObj (v : pyobj)
| PrFloat (f : float)
| PrInt (z : Z)
| PrExc (e : PyExc)
| PrRound2 (n : number)
| PrList (l : list Printed)
| PrFormat (parts : list Printed).

Inductive Event : Type :=
| Prompt (s : string)
| Stdout (items : list Printed)
| Stderr (items : list Printed)
| Call_compute_stats (temps : list float).

(** How the script ends: [main] returns the exit status, or an exception
    leaves it uncaught. *)
Inductive Exit : Type :=
| Return (status : Z)
| Uncaught (e : PyExc).

Definition prompt_text : string := "Enter a city name (e.g. London): ".

(** Lines 103-111: city, then --lat/--lon, then the prompt.  [if args.city]
    tests truthiness, so an empty name counts as no name. *)
Definition resolve_location (w : World) (args : Args)
  : list Event * Res (float * float) :=
  match args_city args with
  | Some (String c s) => ([], geocode_city w (String c s))
  | _ =>
      match args_lat args, args_lon args with
      | Some lat, Some lon => ([], Ok (lat, lon))
      | _, _ =>
          ([Prompt prompt_text],
           city <- input w prompt_text ;;
           geocode_city w (str_strip w city))
      end
  end.

(** [[round(x, 2) for x in series]] *)
Fixpoint round2_all (series : list pyobj) : Res (list Printed) :=
  match series with
  | [] => Ok []
  | x :: series' =>
      match as_number x with
      | Some n => rs <- round2_all series' ;; Ok (PrRound2 n :: rs)
      | None => Raise TypeError
      end
  end.

Definition no_points : Event := Stdout [PrStr "No temperature points returned."].

Definition fetch_error (e : PyExc) : Event :=
  Stderr [PrStr "Error fetching temperatures:"; PrExc e].

(** Lines 125-134: the report. *)
Definition report (ev : list Event) (stats : Stats) (tmax tmin dates : list pyobj)
  : list Event * Exit :=
  match dates with
  | [] => (ev, Uncaught IndexError)
  | d0 :: _ =>
      let ev := ev ++ [Stdout [PrFormat [PrStr "Dates: "; PrObj d0; PrStr " to ";
                                         PrObj (last dates d0); PrStr " -- ";
                                         PrInt (count stats); PrStr " days"]]] in
      match round2_all tmax with
      | inl e => (ev, Uncaught e)
      | inr rmax =>
          let ev := ev ++ [Stdout [PrStr "Daily max (C):"; PrList rmax]] in
          match round2_all tmin with
          | inl e => (ev, Uncaught e)
          | inr rmin =>
              (ev ++
               [ Stdout [PrStr "Daily min (C):"; PrList rmin];
                 Stdout [PrStr "Highest Temperature (C):"; PrFloat (highest_c stats)];
                 Stdout [PrStr "Lowest Temperature (C):"; PrFloat (lowest_c stats)];
                 Stdout [PrStr "Average Temperature (C):"; PrFloat (average_c stats)];
                 Stdout [PrStr "Temperatures in Fahrenheit:";
                         PrList (map (fun f => PrRound2 (NFloat f)) (fahrenheit stats))];
                 Stdout [PrStr "Number of days with Temperature above 20C:";
                         PrInt (days_above_20c stats)] ],
               Return 0)
          end
      end
  end.

(** Lines 113-134, from the outcome of the call of the fetcher on. *)
Definition main_after_fetch (ev : list Event) (fetched : Res FetchResult)
  : list Event * Exit :=
  match fetched with
  | inl e => (ev ++ [fetch_error e], Return 2)
  | inr (temps, tmax, tmin, dates) =>
      if (List.length temps =? 0)%nat then (ev ++ [no_points], Return 1)
      else
        let ev := ev ++ [Call_compute_stats temps] in
        match compute_stats temps with
        | inl e => (ev, Uncaught e)
        | inr stats => report ev stats tmax tmin dates
        end
  end.

Definition main (w : World) (args : Args) : list Event * Exit :=
  match resolve_location w args with
  | (ev, inl e) => (ev, Uncaught e)
  | (ev, inr (lat, lon)) =>
      main_after_fetch ev
        (fetch_daily_mean_temperature w lat lon (args_start args) (args_end args)
           (negb (args_no_cache args)))
  end.

(** Lines 137-138, [raise SystemExit(main())]: the status [main] returns is
    the status of the process; an exception (a subclass of [Exception], as
    all of [PyExc] are) that leaves [main] ends the interpreter with a
    traceback and status 1. *)
Definition exit_status (x : Exit) : Z :=
  match x with
  | Return status => status
  | Uncaught _ => 1
  end.

(** Line 101: [parse_args] returns the namespace, or leaves through
    SystemExit, with status 2 after a usage error and 0 after --help. *)
Inductive Parsed : Type :=
| Namespace (args : Args)
| UsageError
| HelpRequested.

(** The exit status of the process, from the outcome of [parse_args] on.
    An interrupt (KeyboardInterrupt, no subclass of [Exception]) is outside
    the model. *)
Definition script_status (w : World) (p : Parsed) : Z :=
  match p with
  | Namespace args => exit_status (snd (main w args))
  | UsageError => 2
  | HelpRequested => 0
  end.

(** ** Vocabulary of the statements *)

(** A sequence of doubles without NaN. *)
Definition no_nan (l : list float) : Prop :=
  Forall (fun x => is_nan x = false) l.

(** The same number: equal under Python's [==] (which does not tell the
    two zeros apart), or both NaN. *)
Definition same_number (x y : float) : Prop :=
  (x =? y)%float = true \/ (is_nan x = true /\ is_nan y = true).

(** A sequence of doubles with a NaN in it. *)
Definition has_nan (l : list float) : Prop :=
  Exists (fun x => is_nan x = true) l.

(** The eight running sums of [np.sum_block], in a list. *)
Definition lanes_list (r : np.lanes) : list float :=
  let '(r0, r1, r2, r3, r4, r5, r6, r7) := r in [r0; r1; r2; r3; r4; r5; r6; r7].

(** The weather endpoint answered 200 with a JSON body whose [daily] object
    gives these three values ([None] for a missing key). *)
Definition daily_response (w : World) (lat lon : float) (start end_ : string)
    (use_cache : bool) (tmax tmin dates : pyobj) : Prop :=
  exists resp data daily,
    requests_get w use_cache URL (weather_params lat lon start end_) = inr resp /\
    status_code resp = 200 /\
    json resp = inr data /\
    py_get data "daily" (PDict []) = inr daily /\
    py_get daily "temperature_2m_max" PNone = inr tmax /\
    py_get daily "temperature_2m_min" PNone = inr tmin /\
    py_get daily "time" PNone = inr dates.

(** The geocoding endpoint answered 200 with a JSON object whose [results]
    entry is this value ([None] for a missing key). *)
Definition geocode_response (w : World) (city : string) (results : pyobj) : Prop :=
  exists resp data,
    requests_get w false GEOCODE_URL [("name", ParStr city); ("count", ParInt 1)]
      = inr resp /\
    status_code resp = 200 /\
    json resp = inr data /\
    py_get data "results" PNone = inr results.

Definition no_geocoding_results (city : string) : PyExc :=
  RuntimeError ("No geocoding results for city: " ++ city).

(** An int, a bool or a float: what [round] and the arithmetic accept. *)
Definition numeric (v : pyobj) : bool :=
  match as_number v with
  | Some _ => true
  | None => false
  end.

(** A value read for a series key: [None] when the key is missing, or an
    array.  Such a value is falsy when it is absent or empty. *)
Definition series (v : pyobj) : Prop :=
  v = PNone \/ exists l, v = PList l.

Definition absent_or_empty (v : pyobj) : Prop :=
  v = PNone \/ v = PList [].

(** The same arguments with other values of [--lat] and [--lon]. *)
Definition with_coordinates (args : Args) (lat lon : option float) : Args :=
  {| args_lat := lat; args_lon := lon;
     args_city := args_city args;
     args_start := args_start args; args_end := args_end args;
     args_no_cache := args_no_cache args |}.

(** ** Sample inputs *)

(** [s.strip()] for a line of ASCII characters, where the white space is
    the codes 9 to 13 and 28 to 32. *)
Definition ascii_isspace (c : ascii) : bool :=
  let n := nat_of_ascii c in
  ((9 <=? n) && (n <=? 13) || (28 <=? n) && (n <=? 32))%nat.

Fixpoint ascii_lstrip (l : list ascii) : list ascii :=
  match l with
  | c :: l' => if ascii_isspace c then ascii_lstrip l' else l
  | [] => []
  end.

Definition ascii_strip (s : string) : string :=
  string_of_list_ascii
    (rev (ascii_lstrip (rev (ascii_lstrip (list_ascii_of_string s))))).

(** A world whose every request is answered with the given status and JSON
    body, and whose terminal is closed. *)
Definition answering (status : Z) (body : pyobj) : World :=
  {| requests_get := fun _ _ _ => inr (mkResponse status "body" (inr body));
     input := fun _ => inl EOFError;
     float_of_str := fun _ => None;
     str_strip := ascii_strip |}.

Definition forecast (tmax tmin dates : pyobj) : pyobj :=
  PDict [("daily", PDict [("time", dates);
                          ("temperature_2m_max", tmax);
                          ("temperature_2m_min", tmin)])].

Definition two_days : pyobj := PList [PStr "2024-01-01"; PStr "2024-01-02"].

(** Two days of weather; three maxima for two minima; temperatures without
    dates; dates without temperatures; a failing server. *)
Definition fair_weather : World :=
  answering 200 (forecast (PList (map PFloat [20.5; 18]%float))
                          (PList (map PFloat [10.5; 9]%float)) two_days).

Definition ragged_weather : World :=
  answering 200 (forecast (PList (map PFloat [20.5; 18; 25]%float))
                          (PList (map PFloat [10.5; 9]%float)) two_days).

Definition undated_weather : World :=
  answering 200 (forecast (PList [PFloat 20.5]) (PList [PFloat 10.5]) (PList [])).

Definition empty_weather : World :=
  answering 200 (forecast (PList []) (PList []) two_days).

Definition server_error : World := answering 500 PNone.

Definition london : pyobj :=
  PDict [("results", PList [PDict [("name", PStr "London");
                                   ("latitude", PFloat 51.5);
                                   ("longitude", PFloat (-0.125))]])].

Definition by_city : Args :=
  {| args_lat := Some 0%float; args_lon := Some 0%float;
     args_city := Some "London";
     args_start := "2024-01-01"; args_end := "2024-01-02";
     args_no_cache := false |}.

Definition by_coordinates : Args :=
  {| args_lat := Some 51.5%float; args_lon := Some (-0.125)%float;
     args_city := None;
     args_start := "2024-01-01"; args_end := "2024-01-02";
     args_no_cache := false |}.

(** One mean, and a second maximum that is [null]. *)
Definition null_tail_weather : World :=
  answering 200 (forecast (PList [PFloat 20.5; PNone]) (PList [PFloat 10.5])
                          two_days).

(** Integers and a boolean among the temperatures, three maxima for two
    minima. *)
Definition mixed_weather : World :=
  answering 200 (forecast (PList [PInt 21; PFloat 18; PNone])
                          (PList [PInt 10; PBool true]) two_days).

(** A terminal where the user types an ASCII line, and a geocoder that
    knows London. *)
Definition typing (line : string) (body : pyobj) : World :=
  {| requests_get := fun _ _ _ => inr (mkResponse 200 "body" (inr body));
     input := fun _ => inr line;
     float_of_str := fun _ => None;
     str_strip := ascii_strip |}.

Definition no_location : Args :=
  {| args_lat := Some 51.5%float; args_lon := None;
     args_city := None;
     args_start := "2024-01-01"; args_end := "2024-01-02";
     args_no_cache := false |}.

Definition empty_city : Args :=
  {| args_lat := Some 51.5%float; args_lon := Some (-0.125)%float;
     args_city := Some "";
     args_start := "2024-01-01"; args_end := "2024-01-02";
     args_no_cache := true |}.

(** Python's 0.1, the double nearest to one tenth. *)
Definition tenth : float := 0x1.999999999999ap-4%float.


(** * Properties *)

(** ** The order of binary64 values *)

Module FloatOrder.

Ltac cmp_cases :=
  repeat match goal with
  | |- context [(?a ?= ?b)%Z] => destruct (Z.compare_spec a b); subst
  | H : context [(?a ?= ?b)%Z] |- _ => destruct (Z.compare_spec a b); subst
  | |- context [(?a ?= ?b)%positive] => destruct (Pos.compare_spec a b); subst
  | H : context [(?a ?= ?b)%positive] |- _ => destruct (Pos.compare_spec a b); subst
  end.

Ltac by_cases :=
  repeat match goal with s : bool |- _ => destruct s end;
  try discriminate; try reflexivity;
  change PosDef.Pos.compare_cont with Pos.compare_cont;
  change (Pos.compare_cont Eq) with Pos.compare;
  cmp_cases; simpl; intros; try discriminate; try reflexivity; try lia.

Lemma SFleb_trans (x y z : spec_float) :
  SFleb x y = true -> SFleb y z = true -> SFleb x z = true.
Proof.
  unfold SFleb, SFcompare.
  destruct x as [sx|sx| |sx mx ex], y as [sy|sy| |sy my ey],
           z as [sz|sz| |sz mz ez];
    try discriminate; try reflexivity; by_cases.
Qed.

Lemma SFleb_total (x y : spec_float) :
  x <> S754_nan -> y <> S754_nan -> SFleb x y = false -> SFleb y x = true.
Proof.
  unfold SFleb, SFcompare.
  destruct x as [sx|sx| |sx mx ex], y as [sy|sy| |sy my ey];
    try congruence; try reflexivity; by_cases.
Qed.

Lemma SFeqb_not_ltb (x y : spec_float) :
  SFeqb x y = true -> SFltb y x = false.
Proof.
  unfold SFeqb, SFltb, SFcompare.
  destruct x as [sx|sx| |sx mx ex], y as [sy|sy| |sy my ey];
    try discriminate; try reflexivity; by_cases.
Qed.

Local Open Scope float_scope.

Lemma not_nan_spec (x : float) : is_nan x = false -> Prim2SF x <> S754_nan.
Proof.
  unfold is_nan. rewrite FloatAxioms.eqb_spec. intros H E.
  rewrite E in H. discriminate.
Qed.

Lemma leb_refl (x : float) : is_nan x = false -> (x <=? x) = true.
Proof.
  unfold is_nan. rewrite FloatAxioms.eqb_spec, FloatAxioms.leb_spec.
  unfold SFeqb, SFleb.
  destruct (SFcompare (Prim2SF x) (Prim2SF x)) as [[]|]; simpl; congruence.
Qed.

Lemma leb_trans (x y z : float) :
  (x <=? y) = true -> (y <=? z) = true -> (x <=? z) = true.
Proof. rewrite !FloatAxioms.leb_spec. apply SFleb_trans. Qed.

Lemma leb_total (x y : float) :
  is_nan x = false -> is_nan y = false -> (x <=? y) = false -> (y <=? x) = true.
Proof.
  intros Hx Hy. rewrite !FloatAxioms.leb_spec.
  apply SFleb_total; now apply not_nan_spec.
Qed.

Lemma eqb_refl (x : float) : is_nan x = false -> (x =? x) = true.
Proof. unfold is_nan. now destruct (x =? x). Qed.

Lemma eqb_not_ltb (x y : float) : (x =? y) = true -> (y <? x) = false.
Proof.
  rewrite FloatAxioms.eqb_spec, FloatAxioms.ltb_spec. apply SFeqb_not_ltb.
Qed.

End FloatOrder.

(** ** [np.max] and [np.min] of a sequence without NaN *)

Section Extremes.

Local Open Scope float_scope.

Lemma maximum_cases (a b : float) :
  is_nan a = false -> is_nan b = false ->
  (np.maximum a b = a /\ (b <=? a) = true) \/
  (np.maximum a b = b /\ (a <=? b) = true).
Proof.
  intros Ha Hb. unfold np.maximum. rewrite Hb, orb_false_r.
  destruct (a <=? b) eqn:E; [right | left]; split; auto.
  now apply FloatOrder.leb_total.
Qed.

Lemma minimum_cases (a b : float) :
  is_nan a = false -> is_nan b = false ->
  (np.minimum a b = a /\ (a <=? b) = true) \/
  (np.minimum a b = b /\ (b <=? a) = true).
Proof.
  intros Ha Hb. unfold np.minimum. rewrite Hb, orb_false_r.
  destruct (b <=? a) eqn:E; [right | left]; split; auto.
  now apply FloatOrder.leb_total.
Qed.

Lemma fold_maximum (xs : list float) : forall acc,
  is_nan acc = false -> no_nan xs ->
  let m := fold_left np.maximum xs acc in
  In m (acc :: xs) /\ forall y, In y (acc :: xs) -> (y <=? m) = true.
Proof.
  induction xs as [|x xs IH]; intros acc Hacc Hxs; simpl.
  - split; [now left |]. intros y [<- | []]. now apply FloatOrder.leb_refl.
  - inversion Hxs as [|? ? Hx Hxs']; subst.
    destruct (maximum_cases acc x Hacc Hx) as [[E L] | [E L]]; rewrite E.
    + destruct (IH acc Hacc Hxs') as [Hin Hle]. split.
      * destruct Hin as [<- | Hin]; [now left | right; now right].
      * intros y [<- | [<- | Hy]].
        -- apply Hle. now left.
        -- eapply FloatOrder.leb_trans; [exact L | apply Hle; now left].
        -- apply Hle. now right.
    + destruct (IH x Hx Hxs') as [Hin Hle]. split.
      * right. exact Hin.
      * intros y [<- | [<- | Hy]].
        -- eapply FloatOrder.leb_trans; [exact L | apply Hle; now left].
        -- apply Hle. now left.
        -- apply Hle. now right.
Qed.

Lemma fold_minimum (xs : list float) : forall acc,
  is_nan acc = false -> no_nan xs ->
  let m := fold_left np.minimum xs acc in
  In m (acc :: xs) /\ forall y, In y (acc :: xs) -> (m <=? y) = true.
Proof.
  induction xs as [|x xs IH]; intros acc Hacc Hxs; simpl.
  - split; [now left |]. intros y [<- | []]. now apply FloatOrder.leb_refl.
  - inversion Hxs as [|? ? Hx Hxs']; subst.
    destruct (minimum_cases acc x Hacc Hx) as [[E L] | [E L]]; rewrite E.
    + destruct (IH acc Hacc Hxs') as [Hin Hle]. split.
      * destruct Hin as [<- | Hin]; [now left | right; now right].
      * intros y [<- | [<- | Hy]].
        -- apply Hle. now left.
        -- eapply FloatOrder.leb_trans; [apply Hle; now left | exact L].
        -- apply Hle. now right.
    + destruct (IH x Hx Hxs') as [Hin Hle]. split.
      * right. exact Hin.
      * intros y [<- | [<- | Hy]].
        -- eapply FloatOrder.leb_trans; [apply Hle; now left | exact L].
        -- apply Hle. now left.
        -- apply Hle. now right.
Qed.

End Extremes.

(** ** [compute_stats] *)

Section Statistics.

Local Open Scope float_scope.

Lemma compute_stats_nonempty (x : float) (xs : list float) :
  compute_stats (x :: xs) =
  inr {| highest_c := fold_left np.maximum xs x;
         lowest_c := fold_left np.minimum xs x;
         average_c := np.mean (x :: xs);
         fahrenheit := map (fun t => (t * 9 / 5) + 32) (x :: xs);
         days_above_20c := np.count_true (map (fun t => 20 <? t) (x :: xs));
         count := Z.of_nat (List.length (x :: xs)) |}.
Proof. reflexivity. Qed.

Lemma compute_stats_empty : compute_stats [] = inl ValueError.
Proof. reflexivity. Qed.

(** The example of the specification. *)
Example compute_stats_four_days :
  compute_stats [18; 20; 22.5; 15] =
  inr {| highest_c := 22.5; lowest_c := 15; average_c := 18.875;
         fahrenheit := [18 * 9 / 5 + 32; 68; 72.5; 59];
         days_above_20c := 1; count := 4 |}.
Proof. reflexivity. Qed.

(** A block longer than 128 elements is split in two shorter, non-empty
    parts, so the depth given by [np.sum] is never used up. *)
Lemma split_sizes (n : nat) :
  (128 < n)%nat ->
  (0 < n / 2 - (n / 2) mod 8 /\ n / 2 - (n / 2) mod 8 < n)%nat.
Proof.
  intros H.
  pose proof (Nat.div_mod_eq n 2). pose proof (Nat.mod_upper_bound n 2).
  pose proof (Nat.div_mod_eq (n / 2) 8).
  pose proof (Nat.mod_upper_bound (n / 2) 8).
  lia.
Qed.

Lemma pairwise_sum_depth (d1 : nat) : forall d2 a,
  (List.length a <= d1)%nat -> (List.length a <= d2)%nat ->
  np.pairwise_sum d1 a = np.pairwise_sum d2 a.
Proof.
  induction d1 as [|d1 IH]; intros [|d2] a H1 H2; cbn [np.pairwise_sum];
    destruct (List.length a <=? 128)%nat eqn:E; try reflexivity;
    apply Nat.leb_gt in E; try lia.
  destruct (split_sizes _ E) as [Hpos Hlt].
  f_equal; apply IH; rewrite ?length_firstn, ?length_skipn; lia.
Qed.

Lemma count_true_acc (mask : list bool) : forall acc,
  fold_left (fun a b => (a + Z.b2z b)%Z) mask acc =
  (acc + Z.of_nat (List.length (filter (fun b => b) mask)))%Z.
Proof.
  induction mask as [|b mask IH]; intros acc; simpl.
  - lia.
  - rewrite IH. destruct b; simpl List.length; simpl Z.b2z; lia.
Qed.

Lemma count_true_filter (p : float -> bool) (l : list float) :
  np.count_true (map p l) = Z.of_nat (List.length (filter p l)).
Proof.
  unfold np.count_true. rewrite count_true_acc, Z.add_0_l. do 2 f_equal.
  induction l as [|x l IH]; simpl; [reflexivity |].
  destruct (p x); simpl; now rewrite IH.
Qed.

(** C4, as the specification states it, fails: the mean of three times
    0.1 is 0.10000000000000002, above the highest element. *)
Lemma average_above_highest :
  ~ (forall temps s, temps <> [] -> compute_stats temps = inr s ->
       (lowest_c s <=? average_c s) = true /\
       (average_c s <=? highest_c s) = true).
Proof.
  intros H.
  destruct (H [tenth; tenth; tenth] _ ltac:(discriminate) eq_refl) as [_ Habs].
  vm_compute in Habs. discriminate.
Qed.

(** C4, amended: for a non-empty sequence without NaN, [highest_c] and
    [lowest_c] are elements of the sequence that bound every element, so
    [lowest_c <= highest_c]; [average_c] is the floating-point sum divided
    by the number of elements, with no promise on its place between the
    two. *)
Theorem compute_stats_extremes (temps : list float) :
  temps <> [] -> no_nan temps ->
  exists s, compute_stats temps = inr s /\
    In (highest_c s) temps /\ In (lowest_c s) temps /\
    (forall x, In x temps ->
       (lowest_c s <=? x) = true /\ (x <=? highest_c s) = true) /\
    (lowest_c s <=? highest_c s) = true /\
    average_c s = np.sum temps / Z2float (Z.of_nat (List.length temps)).
Proof.
  destruct temps as [|x xs]; [congruence |]. intros _ Hnan.
  inversion Hnan as [|? ? Hx Hxs]; subst.
  destruct (fold_maximum xs x Hx Hxs) as [Hmax_in Hmax].
  destruct (fold_minimum xs x Hx Hxs) as [Hmin_in Hmin].
  eexists. split; [apply compute_stats_nonempty |]. cbn [highest_c lowest_c average_c].
  repeat split; auto.
Qed.

(** The four days of the specification's example. *)
Lemma compute_stats_extremes_witness :
  [18; 20; 22.5; 15] <> [] /\ no_nan [18; 20; 22.5; 15] /\
  exists s, compute_stats [18; 20; 22.5; 15] = inr s /\
    In (highest_c s) [18; 20; 22.5; 15] /\ In (lowest_c s) [18; 20; 22.5; 15] /\
    (forall x, In x [18; 20; 22.5; 15] ->
       (lowest_c s <=? x) = true /\ (x <=? highest_c s) = true) /\
    (lowest_c s <=? highest_c s) = true /\
    average_c s = np.sum [18; 20; 22.5; 15] / Z2float (Z.of_nat (List.length [18; 20; 22.5; 15])).
Proof.
  assert (N : no_nan [18; 20; 22.5; 15]) by (repeat constructor).
  split; [discriminate | split; [exact N |]].
  apply (compute_stats_extremes [18; 20; 22.5; 15]); [discriminate | exact N].
Defined.

(** C5: [days_above_20c] is the number of elements strictly above 20.0;
    an element equal to 20.0 is not among the counted ones. *)
Theorem days_above_20c_strict (temps : list float) :
  temps <> [] ->
  exists s, compute_stats temps = inr s /\
    days_above_20c s =
      Z.of_nat (List.length (filter (fun x => 20 <? x) temps)) /\
    forall x, (x =? 20) = true -> ~ In x (filter (fun x => 20 <? x) temps).
Proof.
  destruct temps as [|t ts]; [congruence |]. intros _.
  eexists. split; [apply compute_stats_nonempty |]. cbn [days_above_20c].
  split; [apply count_true_filter |].
  intros x Hx Hin. apply filter_In in Hin. destruct Hin as [_ Hlt].
  rewrite (FloatOrder.eqb_not_ltb x 20 Hx) in Hlt. discriminate.
Qed.

(** Four days, one of them at 20.0 exactly: one day is counted. *)
Lemma days_above_20c_strict_witness :
  [18; 20; 22.5; 15] <> [] /\
  exists s, compute_stats [18; 20; 22.5; 15] = inr s /\
    days_above_20c s =
      Z.of_nat (List.length (filter (fun x => 20 <? x) [18; 20; 22.5; 15])) /\
    forall x, (x =? 20) = true ->
      ~ In x (filter (fun x => 20 <? x) [18; 20; 22.5; 15]).
Proof.
  split; [discriminate |].
  apply (days_above_20c_strict [18; 20; 22.5; 15]). discriminate.
Defined.

(** C6: the Fahrenheit series has the length of the mean series and its
    element at every index is [mean * 9 / 5 + 32] (equal to it under
    Python's [==] unless it is a NaN); 0 maps to 32 and 100 to 212. *)
Theorem fahrenheit_affine (temps : list float) :
  temps <> [] ->
  exists s, compute_stats temps = inr s /\
    List.length (fahrenheit s) = List.length temps /\
    forall (i : nat) (d : float), (i < List.length temps)%nat ->
      nth i (fahrenheit s) d = nth i temps d * 9 / 5 + 32 /\
      (is_nan (nth i (fahrenheit s) d) = false ->
       (nth i (fahrenheit s) d =? nth i temps d * 9 / 5 + 32) = true) /\
      (nth i temps d = 0 -> nth i (fahrenheit s) d = 32) /\
      (nth i temps d = 100 -> nth i (fahrenheit s) d = 212).
Proof.
  destruct temps as [|t ts]; [congruence |]. intros _.
  eexists. split; [apply compute_stats_nonempty |]. cbn [fahrenheit].
  split; [apply length_map |].
  intros i d Hi.
  assert (E : nth i (map (fun t => t * 9 / 5 + 32) (t :: ts)) d
              = nth i (t :: ts) d * 9 / 5 + 32).
  { rewrite (nth_indep _ d (d * 9 / 5 + 32)) by (rewrite length_map; exact Hi).
    apply (map_nth (fun t => t * 9 / 5 + 32)). }
  rewrite E. split; [reflexivity |]. split; [apply FloatOrder.eqb_refl |].
  split; intros ->; reflexivity.
Qed.

(** Freezing and boiling water. *)
Lemma fahrenheit_affine_witness :
  [0; 100] <> [] /\
  exists s, compute_stats [0; 100] = inr s /\
    List.length (fahrenheit s) = List.length [0; 100] /\
    forall (i : nat) (d : float), (i < List.length [0; 100])%nat ->
      nth i (fahrenheit s) d = nth i [0; 100] d * 9 / 5 + 32 /\
      (is_nan (nth i (fahrenheit s) d) = false ->
       (nth i (fahrenheit s) d =? nth i [0; 100] d * 9 / 5 + 32) = true) /\
      (nth i [0; 100] d = 0 -> nth i (fahrenheit s) d = 32) /\
      (nth i [0; 100] d = 100 -> nth i (fahrenheit s) d = 212).
Proof.
  split; [discriminate |].
  apply (fahrenheit_affine [0; 100]). discriminate.
Defined.

End Statistics.

(** ** [fetch_daily_mean_temperature] *)

Section Fetcher.

Variable w : World.
Variables lat lon : float.
Variables start end_ : string.
Variable use_cache : bool.

Local Abbreviation fetch :=
  (fetch_daily_mean_temperature w lat lon start end_ use_cache).

(** On a 200 answer with a [daily] object the fetcher is [daily_series]
    of the three values read from it. *)
Lemma fetch_daily_series (tmax tmin dates : pyobj) :
  daily_response w lat lon start end_ use_cache tmax tmin dates ->
  fetch = daily_series tmax tmin dates.
Proof.
  intros (resp & data & daily & Hget & Hst & Hjs & Hd & Hmax & Hmin & Hdt).
  unfold fetch_daily_mean_temperature.
  rewrite Hget. cbn [bind]. rewrite Hst. cbn [Z.eqb Pos.eqb negb].
  rewrite Hjs. cbn [bind]. rewrite Hd. cbn [bind].
  rewrite Hmax. cbn [bind]. rewrite Hmin. cbn [bind]. rewrite Hdt.
  reflexivity.
Qed.

Lemma daily_mean_floats (a b : float) :
  daily_mean (PFloat a) (PFloat b) = inr ((a + b) / 2)%float.
Proof. reflexivity. Qed.

Lemma zip_means_floats (xs : list float) : forall ys,
  zip_means (map PFloat xs) (map PFloat ys) =
  inr (map (fun p => ((fst p + snd p) / 2)%float) (combine xs ys)).
Proof.
  induction xs as [|x xs IH]; intros [|y ys]; try reflexivity.
  cbn [map zip_means combine]. rewrite daily_mean_floats. cbn [bind].
  rewrite IH. reflexivity.
Qed.

(** The exceptions the comprehension of the means can raise. *)
Lemma daily_mean_raises (mx mn : pyobj) (e : PyExc) :
  daily_mean mx mn = inl e -> e = TypeError \/ e = OverflowError.
Proof.
  unfold daily_mean, py_add, py_truediv, to_float, float_of_int.
  destruct mx, mn; cbn;
    repeat match goal with
    | |- context [if ?c then _ else _] => destruct c; cbn
    end;
    intros E; inversion E; auto.
Qed.

Lemma zip_means_raises (xs : list pyobj) : forall ys e,
  zip_means xs ys = inl e -> e = TypeError \/ e = OverflowError.
Proof.
  induction xs as [|x xs IH]; intros [|y ys] e; cbn; try discriminate.
  destruct (daily_mean x y) eqn:E; cbn.
  - intros H. inversion H; subst. eapply daily_mean_raises; eauto.
  - destruct (zip_means xs ys) eqn:Z; cbn; [| discriminate].
    intros H. inversion H; subst. eapply IH; eauto.
Qed.

Lemma zip_means_length (xs : list pyobj) : forall ys ms,
  zip_means xs ys = inr ms ->
  List.length ms = Nat.min (List.length xs) (List.length ys).
Proof.
  induction xs as [|x xs IH]; intros [|y ys] ms; cbn;
    try (intros E; inversion E; reflexivity).
  destruct (daily_mean x y); cbn; [discriminate |].
  destruct (zip_means xs ys) eqn:Z; cbn; [discriminate |].
  intros E. inversion E; subst. cbn. f_equal. now apply IH.
Qed.

Lemma truthy_iter (v : pyobj) (l : list pyobj) :
  truthy v = true -> py_iter v = inr l -> l <> [].
Proof.
  destruct v as [| | | |s|l'|d]; cbn; try discriminate.
  - destruct s; [discriminate |]. intros _ E. inversion E. discriminate.
  - destruct l'; [discriminate |]. intros _ E. inversion E. discriminate.
  - destruct d; [discriminate |]. intros _ E. inversion E. discriminate.
Qed.

(** A successful [daily_series] has as many means as the shorter of the two
    temperature series, and at least one. *)
Lemma daily_series_ok (tmax tmin dates : pyobj)
    (means : list float) (lmax lmin ldates : list pyobj) :
  daily_series tmax tmin dates = inr (means, lmax, lmin, ldates) ->
  py_iter tmax = inr lmax /\ py_iter tmin = inr lmin /\
  py_iter dates = inr ldates /\
  lmax <> [] /\ lmin <> [] /\ ldates <> [] /\
  zip_means lmax lmin = inr means /\ means <> [].
Proof.
  unfold daily_series.
  destruct (truthy tmax) eqn:Tx; [| discriminate].
  destruct (truthy tmin) eqn:Tn; [| discriminate].
  destruct (truthy dates) eqn:Td; [| discriminate]. cbn.
  destruct (py_iter tmax) as [|xs] eqn:Ix; [discriminate |]. cbn.
  destruct (py_iter tmin) as [|ys] eqn:In_; [discriminate |]. cbn.
  destruct (zip_means xs ys) as [|ms] eqn:Z; [discriminate |]. cbn.
  destruct (py_iter dates) as [|ds] eqn:Id; [discriminate |]. cbn.
  intros E. inversion E; subst.
  pose proof (truthy_iter _ _ Tx Ix) as Nx.
  pose proof (truthy_iter _ _ Tn In_) as Nn.
  pose proof (truthy_iter _ _ Td Id) as Nd.
  repeat split; auto.
  destruct lmax, lmin; try congruence. cbn in Z.
  destruct (daily_mean p p0); cbn in Z; [discriminate |].
  destruct (zip_means lmax lmin); cbn in Z; [discriminate |].
  inversion Z. discriminate.
Qed.

Lemma daily_series_length (tmax tmin dates : pyobj)
    (means : list float) (lmax lmin ldates : list pyobj) :
  daily_series tmax tmin dates = inr (means, lmax, lmin, ldates) ->
  List.length means = Nat.min (List.length lmax) (List.length lmin).
Proof.
  intros E. apply daily_series_ok in E.
  destruct E as (_ & _ & _ & _ & _ & _ & Z & _). now apply zip_means_length.
Qed.

Lemma fetch_ok_nonempty (means : list float) (lmax lmin ldates : list pyobj) :
  fetch = inr (means, lmax, lmin, ldates) -> means <> [].
Proof.
  unfold fetch_daily_mean_temperature.
  destruct (requests_get _ _ _ _) as [|resp]; [discriminate |]. cbn [bind].
  destruct (negb _); [discriminate |].
  destruct (json resp) as [|data]; [discriminate |]. cbn [bind].
  destruct (py_get data _ _) as [|daily]; [discriminate |]. cbn [bind].
  destruct (py_get daily "temperature_2m_max" _) as [|tmax]; [discriminate |].
  cbn [bind].
  destruct (py_get daily "temperature_2m_min" _) as [|tmin]; [discriminate |].
  cbn [bind].
  destruct (py_get daily "time" _) as [|dates]; [discriminate |]. cbn [bind].
  intros E. now apply daily_series_ok in E.
Qed.

(** The series of a well-formed answer: arrays of doubles and a non-empty
    array of dates. *)
Lemma daily_series_floats (xs ys : list float) (ds : list pyobj) :
  xs <> [] -> ys <> [] -> ds <> [] ->
  daily_series (PList (map PFloat xs)) (PList (map PFloat ys)) (PList ds) =
  inr (map (fun p => ((fst p + snd p) / 2)%float) (combine xs ys),
       map PFloat xs, map PFloat ys, ds).
Proof.
  intros Hx Hy Hd. unfold daily_series.
  destruct xs as [|x xs]; [congruence |].
  destruct ys as [|y ys]; [congruence |].
  destruct ds as [|d ds]; [congruence |].
  cbn [map truthy negb orb]. unfold py_iter, Ok. cbn [bind].
  change (zip_means (PFloat x :: map PFloat xs) (PFloat y :: map PFloat ys))
    with (zip_means (map PFloat (x :: xs)) (map PFloat (y :: ys))).
  rewrite zip_means_floats. reflexivity.
Qed.

End Fetcher.

Section FetcherSeries.

Variable w : World.
Variables lat lon : float.
Variables start end_ : string.
Variable use_cache : bool.

Local Abbreviation fetch :=
  (fetch_daily_mean_temperature w lat lon start end_ use_cache).

(** C2: for arrays of doubles of one length n (and a non-empty array of
    dates) the fetcher returns, the mean series has length n and its
    element at every index is [(max + min) / 2], the double the division
    gives, unrounded; Python's [==] holds between the two unless the value
    is a NaN. *)
Theorem daily_means_formula (xs ys : list float) (ds : list pyobj) :
  daily_response w lat lon start end_ use_cache
    (PList (map PFloat xs)) (PList (map PFloat ys)) (PList ds) ->
  xs <> [] -> ds <> [] -> List.length xs = List.length ys ->
  exists means,
    fetch = inr (means, map PFloat xs, map PFloat ys, ds) /\
    List.length means = List.length xs /\
    forall (i : nat) (d : float), (i < List.length xs)%nat ->
      nth i means d = ((nth i xs d + nth i ys d) / 2)%float /\
      (is_nan (nth i means d) = false ->
       (nth i means d =? (nth i xs d + nth i ys d) / 2)%float = true).
Proof.
  intros Hresp Hx Hd Hlen.
  assert (Hy : ys <> []) by (destruct xs, ys; cbn in Hlen; congruence).
  eexists. split.
  - rewrite (fetch_daily_series _ _ _ _ _ _ _ _ _ Hresp).
    now apply daily_series_floats.
  - split.
    + rewrite length_map, length_combine, <- Hlen. apply Nat.min_id.
    + intros i d Hi.
      set (f := fun p : float * float => ((fst p + snd p) / 2)%float).
      rewrite (nth_indep _ d (f (d, d)))
        by (rewrite length_map, length_combine, <- Hlen, Nat.min_id; exact Hi).
      rewrite (map_nth f). rewrite combine_nth by exact Hlen.
      split; [reflexivity | apply FloatOrder.eqb_refl].
Qed.

(** C10: for non-empty arrays of doubles, of one length or not, the
    fetcher returns a mean series as long as the shorter array, next to
    the two arrays in full. *)
Theorem means_truncated_to_shorter (xs ys : list float) (ds : list pyobj) :
  daily_response w lat lon start end_ use_cache
    (PList (map PFloat xs)) (PList (map PFloat ys)) (PList ds) ->
  xs <> [] -> ys <> [] -> ds <> [] ->
  exists means,
    fetch = inr (means, map PFloat xs, map PFloat ys, ds) /\
    List.length means = Nat.min (List.length xs) (List.length ys).
Proof.
  intros Hresp Hx Hy Hd. eexists. split.
  - rewrite (fetch_daily_series _ _ _ _ _ _ _ _ _ Hresp).
    now apply daily_series_floats.
  - now rewrite length_map, length_combine.
Qed.

Lemma daily_series_raises (tmax tmin dates : pyobj) (e : PyExc) :
  daily_series tmax tmin dates = inl e ->
  (e = no_daily_data /\
   (truthy tmax = false \/ truthy tmin = false \/ truthy dates = false)) \/
  ((e = TypeError \/ e = OverflowError) /\
   truthy tmax = true /\ truthy tmin = true /\ truthy dates = true).
Proof.
  unfold daily_series.
  destruct (truthy tmax); [| intros E; inversion E; auto].
  destruct (truthy tmin); [| intros E; inversion E; auto].
  destruct (truthy dates); [| intros E; inversion E; auto].
  cbn [negb orb]. intros E. right. split; [| auto].
  destruct (py_iter tmax) as [e1|xs] eqn:Ix; cbn [bind] in E.
  { inversion E; subst. destruct tmax; cbn in Ix; inversion Ix; auto. }
  destruct (py_iter tmin) as [e2|ys] eqn:Iy; cbn [bind] in E.
  { inversion E; subst. destruct tmin; cbn in Iy; inversion Iy; auto. }
  destruct (zip_means xs ys) as [e3|ms] eqn:Z; cbn [bind] in E.
  { inversion E; subst. eapply zip_means_raises; eauto. }
  destruct (py_iter dates) as [e4|ds] eqn:Id; cbn [bind] in E.
  { inversion E; subst. destruct dates; cbn in Id; inversion Id; auto. }
  discriminate.
Qed.

Lemma series_falsy (v : pyobj) :
  series v -> (truthy v = false <-> absent_or_empty v).
Proof.
  intros [-> | [l ->]]; unfold absent_or_empty; cbn.
  - split; auto.
  - destruct l as [|x l]; split; auto.
    + discriminate.
    + intros [H | H]; discriminate.
Qed.

(** A 200 answer with a JSON body either gives its three series, or its
    body or its [daily] entry is no object and the fetcher raises
    AttributeError. *)
Lemma daily_response_cases (resp : Response) (data : pyobj) :
  requests_get w use_cache URL (weather_params lat lon start end_) = inr resp ->
  status_code resp = 200 ->
  json resp = inr data ->
  (exists tmax tmin dates,
     daily_response w lat lon start end_ use_cache tmax tmin dates) \/
  (fetch = inl AttributeError /\
   ~ exists tmax tmin dates,
       daily_response w lat lon start end_ use_cache tmax tmin dates).
Proof.
  intros G S J.
  assert (F : fetch =
              (daily <- py_get data "daily" (PDict []) ;;
               tmax <- py_get daily "temperature_2m_max" PNone ;;
               tmin <- py_get daily "temperature_2m_min" PNone ;;
               dates <- py_get daily "time" PNone ;;
               daily_series tmax tmin dates)).
  { unfold fetch_daily_mean_temperature. rewrite G. cbn [bind]. rewrite S.
    cbn [Z.eqb Pos.eqb negb]. rewrite J. reflexivity. }
  destruct (py_get data "daily" (PDict [])) as [e|daily] eqn:D.
  - right. split.
    + rewrite F. cbn [bind]. destruct data; cbn in D; inversion D; reflexivity.
    + intros (tmax & tmin & dates & resp' & data' & daily' & G' & _ & J' & D' & _).
      rewrite G in G'. inversion G'; subst resp'. rewrite J in J'.
      inversion J'; subst data'. rewrite D in D'. discriminate D'.
  - destruct daily as [| | | | | |dd] eqn:Ed;
      try (right; split;
           [ rewrite F; reflexivity
           | intros (tmax & tmin & dates & resp' & data' & daily' & G' & _ & J'
                     & D' & X' & _);
             rewrite G in G'; inversion G'; subst resp'; rewrite J in J';
             inversion J'; subst data'; rewrite D in D'; inversion D';
             subst daily'; discriminate X' ]).
    left. do 3 eexists. exists resp, data, (PDict dd).
    repeat split; try eassumption; reflexivity.
Qed.

(** C3, amended: on a 200 answer with a JSON body the fetcher raises the
    missing-data error exactly when the body is an object whose [daily]
    entry is an object (a missing entry counts as an empty one) and the max
    series, the min series or the date series read from it is falsy, which
    for a series is absent or empty, the date series included; a body or a
    [daily] entry that is no object raises AttributeError instead; three
    non-empty arrays, the temperatures doubles, are returned with their
    means. *)
Theorem missing_data_iff (resp : Response) (data : pyobj) :
  requests_get w use_cache URL (weather_params lat lon start end_) = inr resp ->
  status_code resp = 200 ->
  json resp = inr data ->
  (fetch = inl no_daily_data ->
   exists tmax tmin dates,
     daily_response w lat lon start end_ use_cache tmax tmin dates) /\
  (forall tmax tmin dates,
     daily_response w lat lon start end_ use_cache tmax tmin dates ->
     (fetch = inl no_daily_data <->
      truthy tmax = false \/ truthy tmin = false \/ truthy dates = false) /\
     (series tmax -> series tmin -> series dates ->
      (fetch = inl no_daily_data <->
       absent_or_empty tmax \/ absent_or_empty tmin \/ absent_or_empty dates))) /\
  ((~ exists tmax tmin dates,
        daily_response w lat lon start end_ use_cache tmax tmin dates) ->
   fetch = inl AttributeError) /\
  (forall (xs ys : list float) (ds : list pyobj),
     daily_response w lat lon start end_ use_cache
       (PList (map PFloat xs)) (PList (map PFloat ys)) (PList ds) ->
     xs <> [] -> ys <> [] -> ds <> [] ->
     exists means, fetch = inr (means, map PFloat xs, map PFloat ys, ds)).
Proof.
  intros G S J.
  pose proof (daily_response_cases resp data G S J) as C.
  split; [| split; [| split]].
  - intros E. destruct C as [C | [A _]]; [exact C |].
    rewrite A in E. discriminate E.
  - intros tmax tmin dates Hresp.
    rewrite (fetch_daily_series _ _ _ _ _ _ _ _ _ Hresp).
    assert (Hiff : daily_series tmax tmin dates = inl no_daily_data <->
                   truthy tmax = false \/ truthy tmin = false \/
                   truthy dates = false).
    { split.
      - intros E. apply daily_series_raises in E.
        destruct E as [[_ E] | [[E | E] _]]; [exact E | discriminate ..].
      - intros E. unfold daily_series.
        destruct E as [E | [E | E]]; rewrite E; cbn [negb orb];
          rewrite ?orb_true_r; reflexivity. }
    split; [exact Hiff |].
    intros Sx Sn Sd.
    rewrite Hiff, (series_falsy _ Sx), (series_falsy _ Sn), (series_falsy _ Sd).
    reflexivity.
  - intros N. destruct C as [C | [A _]]; [now destruct N | exact A].
  - intros xs ys ds Hresp Hx Hy Hd.
    rewrite (fetch_daily_series _ _ _ _ _ _ _ _ _ Hresp). eexists.
    now apply daily_series_floats.
Qed.

End FetcherSeries.

(** C3, as the specification states it, fails: an empty array of dates
    next to non-empty temperatures raises the same error. *)
Lemma empty_dates_are_missing_data :
  ~ (forall (w : World) (lat lon : float) (start end_ : string)
            (use_cache : bool) (tmax tmin dates : pyobj),
       daily_response w lat lon start end_ use_cache tmax tmin dates ->
       (fetch_daily_mean_temperature w lat lon start end_ use_cache
          = inl no_daily_data <->
        tmax = PNone \/ tmin = PNone \/ dates = PNone \/
        tmax = PList [] \/ tmin = PList [])).
Proof.
  intros H.
  destruct (H undated_weather
              0%float 0%float "" "" true
              (PList [PFloat 20.5]) (PList [PFloat 10.5]) (PList [])) as [H1 _].
  - do 3 eexists. repeat split; reflexivity.
  - destruct (H1 eq_refl) as [E | [E | [E | [E | E]]]]; discriminate.
Qed.

Lemma daily_response_answering (status : Z) (tmax tmin dates : pyobj)
    (lat lon : float) (start end_ : string) (use_cache : bool) :
  status = 200 ->
  daily_response (answering status (forecast tmax tmin dates))
    lat lon start end_ use_cache tmax tmin dates.
Proof. intros ->. do 3 eexists. repeat split; reflexivity. Defined.

(** Two days, [fair_weather]. *)
Lemma daily_means_formula_witness :
  exists means,
    fetch_daily_mean_temperature fair_weather 51.5 (-0.125)
      "2024-01-01" "2024-01-02" true
      = inr (means, map PFloat [20.5; 18]%float, map PFloat [10.5; 9]%float,
             [PStr "2024-01-01"; PStr "2024-01-02"]) /\
    List.length means = 2%nat /\
    forall (i : nat) (d : float), (i < 2)%nat ->
      nth i means d = ((nth i [20.5; 18] d + nth i [10.5; 9] d) / 2)%float /\
      (is_nan (nth i means d) = false ->
       (nth i means d =? (nth i [20.5; 18] d + nth i [10.5; 9] d) / 2)%float
       = true).
Proof.
  apply (daily_means_formula fair_weather 51.5 (-0.125) "2024-01-01" "2024-01-02"
           true [20.5; 18]%float [10.5; 9]%float
           [PStr "2024-01-01"; PStr "2024-01-02"]).
  - now apply daily_response_answering.
  - discriminate.
  - discriminate.
  - reflexivity.
Defined.

(** Three maxima and two minima give two means. *)
Lemma means_truncated_to_shorter_witness :
  exists means,
    fetch_daily_mean_temperature ragged_weather 51.5 (-0.125)
      "2024-01-01" "2024-01-02" true
      = inr (means, map PFloat [20.5; 18; 25]%float, map PFloat [10.5; 9]%float,
             [PStr "2024-01-01"; PStr "2024-01-02"]) /\
    List.length means = 2%nat.
Proof.
  apply (means_truncated_to_shorter ragged_weather 51.5 (-0.125)
           "2024-01-01" "2024-01-02" true
           [20.5; 18; 25]%float [10.5; 9]%float
           [PStr "2024-01-01"; PStr "2024-01-02"]).
  - now apply daily_response_answering.
  - discriminate.
  - discriminate.
  - discriminate.
Defined.

(** Temperatures without dates are missing data. *)
Lemma missing_data_iff_witness :
  fetch_daily_mean_temperature undated_weather 51.5 (-0.125)
    "2024-01-01" "2024-01-02" true
    = inl no_daily_data.
Proof.
  destruct (missing_data_iff undated_weather 51.5 (-0.125)
              "2024-01-01" "2024-01-02" true
              (mkResponse 200 "body"
                 (inr (forecast (PList [PFloat 20.5]) (PList [PFloat 10.5])
                         (PList []))))
              (forecast (PList [PFloat 20.5]) (PList [PFloat 10.5]) (PList []))
              eq_refl eq_refl eq_refl)
    as (_ & Hseries & _).
  destruct (Hseries (PList [PFloat 20.5]) (PList [PFloat 10.5]) (PList []))
    as [_ H].
  - now apply daily_response_answering.
  - apply H.
    + right. now exists [PFloat 20.5%float].
    + right. now exists [PFloat 10.5%float].
    + right. now exists [].
    + right. right. now right.
Defined.

(** ** [main] *)

Section EntryPoint.

Variable w : World.
Variable args : Args.

Local Abbreviation fetched lat lon :=
  (fetch_daily_mean_temperature w lat lon (args_start args) (args_end args)
     (negb (args_no_cache args))).

Lemma main_resolved (ev : list Event) (lat lon : float) :
  resolve_location w args = (ev, inr (lat, lon)) ->
  main w args = main_after_fetch ev (fetched lat lon).
Proof. unfold main. intros ->. reflexivity. Qed.

(** C7: a status other than 200 (so every non-success status) makes the
    fetcher raise the request-failed error with the status code and the
    body text in its message, and any exception of the fetcher makes
    [main] print it to the error stream and return 2. *)
Theorem fetch_failure_exit_2 (ev : list Event) (lat lon : float) :
  resolve_location w args = (ev, inr (lat, lon)) ->
  (forall resp,
     requests_get w (negb (args_no_cache args)) URL
       (weather_params lat lon (args_start args) (args_end args)) = inr resp ->
     status_code resp <> 200 ->
     fetched lat lon =
     inl (RuntimeError ("Open-Meteo request failed: "
                        ++ str_of_int (status_code resp) ++ " " ++ text resp))) /\
  (forall e,
     fetched lat lon = inl e ->
     main w args =
     (ev ++ [Stderr [PrStr "Error fetching temperatures:"; PrExc e]], Return 2)).
Proof.
  intros Hloc. split.
  - intros resp Hget Hst. unfold fetch_daily_mean_temperature.
    rewrite Hget. cbn [bind].
    apply Z.eqb_neq in Hst. rewrite Hst. reflexivity.
  - intros e He. rewrite (main_resolved _ _ _ Hloc), He. reflexivity.
Qed.

(** C8: a supplied (non-empty) city name decides the location: it is the
    geocoder's result for that name whatever --lat and --lon are, and it
    is the location [main] fetches for. *)
Theorem city_has_priority (name : string) :
  args_city args = Some name -> name <> "" ->
  resolve_location w args = ([], geocode_city w name) /\
  (forall lat lon : option float,
     resolve_location w (with_coordinates args lat lon) =
     ([], geocode_city w name)) /\
  main w args =
    match geocode_city w name with
    | inl e => ([], Uncaught e)
    | inr (lat, lon) => main_after_fetch [] (fetched lat lon)
    end.
Proof.
  intros Hcity Hname.
  assert (R : forall a, args_city a = Some name ->
                        resolve_location w a = ([], geocode_city w name)).
  { intros a Ha. unfold resolve_location. rewrite Ha.
    destruct name; [congruence | reflexivity]. }
  split; [now apply R |]. split; [intros; now apply R |].
  unfold main. rewrite (R args Hcity).
  destruct (geocode_city w name) as [e | [la lo]]; reflexivity.
Qed.

Lemma report_exit (ev : list Event) (stats : Stats)
    (tmax tmin dates : list pyobj) :
  snd (report ev stats tmax tmin dates) <> Return 1.
Proof.
  unfold report. destruct dates; [discriminate |].
  destruct (round2_all tmax); [discriminate |].
  destruct (round2_all tmin); discriminate.
Qed.

Lemma report_events (ev : list Event) (stats : Stats)
    (tmax tmin dates : list pyobj) :
  ~ In no_points ev ->
  snd (report ev stats tmax tmin dates) <> Return 1 /\
  ~ In no_points (fst (report ev stats tmax tmin dates)).
Proof.
  intros Hev. unfold report.
  destruct dates as [|d0 ds]; cbn [fst snd]; [split; [discriminate | exact Hev] |].
  destruct (round2_all tmax) as [e|rmax]; cbn [fst snd].
  { split; [discriminate |]. rewrite in_app_iff. intros [H | [H | []]]; auto.
    discriminate. }
  destruct (round2_all tmin) as [e|rmin]; cbn [fst snd].
  { split; [discriminate |]. rewrite !in_app_iff.
    intros [[H | [H | []]] | [H | []]]; auto; discriminate. }
  split; [discriminate |]. rewrite !in_app_iff.
  intros [[[H | [H | []]] | [H | []]] | H]; auto; try discriminate.
  cbn in H. repeat destruct H as [H | H]; try discriminate. exact H.
Qed.

Lemma resolve_location_events :
  ~ In no_points (fst (resolve_location w args)).
Proof.
  unfold resolve_location.
  destruct (args_city args) as [[|c s]|];
    destruct (args_lat args), (args_lon args); cbn;
    try tauto; intros [H | []]; discriminate.
Qed.

(** [main] never ends by the no-data branch. *)
Lemma main_never_no_data :
  snd (main w args) <> Return 1 /\ ~ In no_points (fst (main w args)).
Proof.
  pose proof resolve_location_events as Hev. unfold main.
  destruct (resolve_location w args) as [ev [e | [la lo]]]; cbn [fst] in Hev.
  - split; [discriminate | exact Hev].
  - unfold main_after_fetch.
    destruct (fetch_daily_mean_temperature _ _ _ _ _ _)
      as [e | [[[means lmax] lmin] ldates]] eqn:F.
    + cbn [fst snd]. split; [discriminate |]. rewrite in_app_iff.
      intros [H | [H | []]]; auto. discriminate.
    + apply fetch_ok_nonempty in F. destruct means as [|m ms]; [congruence |].
      cbn [List.length Nat.eqb]. rewrite compute_stats_nonempty.
      apply report_events. rewrite in_app_iff.
      intros [H | [H | []]]; auto. discriminate.
Qed.

End EntryPoint.

(** C1: when the mean series the fetcher hands over is empty, [main]
    prints its message and returns 1, and the events it adds hold no call
    of [compute_stats]; so it is, in particular, for empty max and min
    series from the fetcher. *)
Theorem empty_means_exit_1 (ev : list Event) (lmax lmin ldates : list pyobj) :
  main_after_fetch ev (inr ([], lmax, lmin, ldates))
    = (ev ++ [no_points], Return 1) /\
  main_after_fetch ev (inr ([], [], [], ldates))
    = (ev ++ [no_points], Return 1) /\
  forall temps,
    In (Call_compute_stats temps)
       (fst (main_after_fetch ev (inr ([], lmax, lmin, ldates)))) ->
    In (Call_compute_stats temps) ev.
Proof.
  split; [reflexivity |]. split; [reflexivity |].
  intros temps H. cbn in H. apply in_app_iff in H.
  destruct H as [H | [H | []]]; [exact H | discriminate H].
Qed.

(** Empty max or min arrays in the answer of the weather endpoint do not
    reach that test: the fetcher raises, and [main] prints the error to the
    error stream and returns 2. *)
Lemma empty_response_exit_2 (w : World) (args : Args) (ev : list Event)
    (lat lon : float) (tmax tmin dates : pyobj) :
  resolve_location w args = (ev, inr (lat, lon)) ->
  daily_response w lat lon (args_start args) (args_end args)
    (negb (args_no_cache args)) tmax tmin dates ->
  tmax = PList [] \/ tmin = PList [] ->
  main w args = (ev ++ [fetch_error no_daily_data], Return 2).
Proof.
  intros Hloc Hresp Hempty.
  rewrite (main_resolved _ _ _ _ _ Hloc).
  rewrite (fetch_daily_series _ _ _ _ _ _ _ _ _ Hresp).
  unfold daily_series.
  destruct Hempty as [-> | ->]; cbn [truthy negb orb];
    rewrite ?orb_true_r; reflexivity.
Qed.

Example empty_weather_exit_2 :
  main empty_weather by_coordinates = ([fetch_error no_daily_data], Return 2).
Proof. reflexivity. Qed.

(** A status 500 with the body text [body]. *)
Lemma fetch_failure_exit_2_witness :
  fetch_daily_mean_temperature server_error 51.5 (-0.125)
    "2024-01-01" "2024-01-02" true
    = inl (RuntimeError "Open-Meteo request failed: 500 body") /\
  main server_error by_coordinates =
    ([Stderr [PrStr "Error fetching temperatures:";
              PrExc (RuntimeError "Open-Meteo request failed: 500 body")]],
     Return 2).
Proof.
  destruct (fetch_failure_exit_2 server_error by_coordinates [] 51.5 (-0.125)
              eq_refl) as [Hraise Hexit].
  split.
  - apply (Hraise (mkResponse 500 "body" (inr PNone))); [reflexivity | discriminate].
  - apply Hexit.
    apply (Hraise (mkResponse 500 "body" (inr PNone))); [reflexivity | discriminate].
Defined.

(** --city London next to --lat 0 --lon 0: the location is London's. *)
Lemma city_has_priority_witness :
  resolve_location (answering 200 london) by_city =
    ([], inr (51.5%float, (-0.125)%float)) /\
  forall lat lon : option float,
    resolve_location (answering 200 london) (with_coordinates by_city lat lon) =
      ([], inr (51.5%float, (-0.125)%float)).
Proof.
  destruct (city_has_priority (answering 200 london) by_city "London"
              eq_refl ltac:(discriminate)) as (H1 & H2 & _).
  split; [exact H1 | exact H2].
Defined.

(** C9: a tuple the fetcher returns carries a non-empty mean series, so
    the emptiness test of [main] is false on it; [main] never returns 1 and
    never prints the no-data message. *)
Theorem fetched_means_nonempty (w : World) (lat lon : float)
    (start end_ : string) (use_cache : bool)
    (means : list float) (lmax lmin ldates : list pyobj) :
  fetch_daily_mean_temperature w lat lon start end_ use_cache
    = inr (means, lmax, lmin, ldates) ->
  means <> [] /\
  (forall ev, snd (main_after_fetch ev (inr (means, lmax, lmin, ldates)))
              <> Return 1) /\
  (forall args, snd (main w args) <> Return 1 /\
                ~ In no_points (fst (main w args))).
Proof.
  intros F. apply fetch_ok_nonempty in F. split; [exact F |]. split.
  - intros ev. destruct means as [|m ms]; [congruence |].
    unfold main_after_fetch. cbn [List.length Nat.eqb].
    rewrite compute_stats_nonempty. apply report_exit.
  - intros args. apply main_never_no_data.
Qed.

(** [fair_weather] has two means. *)
Lemma fetched_means_nonempty_witness :
  fetch_daily_mean_temperature fair_weather 51.5 (-0.125)
    "2024-01-01" "2024-01-02" true
    = inr ([15.5; 13.5]%float, map PFloat [20.5; 18]%float,
           map PFloat [10.5; 9]%float, [PStr "2024-01-01"; PStr "2024-01-02"]) /\
  [15.5; 13.5]%float <> [] /\
  snd (main fair_weather by_coordinates) <> Return 1.
Proof.
  split; [reflexivity |].
  destruct (fetched_means_nonempty fair_weather 51.5 (-0.125)
              "2024-01-01" "2024-01-02" true
              [15.5; 13.5]%float (map PFloat [20.5; 18]%float)
              (map PFloat [10.5; 9]%float)
              [PStr "2024-01-01"; PStr "2024-01-02"] eq_refl) as (H1 & _ & H3).
  split; [exact H1 | apply H3].
Defined.

(** ** The report on sample inputs *)

Example main_fair_weather :
  snd (main fair_weather by_coordinates) = Return 0 /\
  In (Call_compute_stats [15.5; 13.5]%float) (fst (main fair_weather by_coordinates)).
Proof. split; [reflexivity | now left]. Qed.

Example geocode_london :
  geocode_city (answering 200 london) "London" = inr (51.5, -0.125)%float.
Proof. reflexivity. Qed.

(** A city the geocoder does not know: the failure leaves [main] before any
    fetch. *)
Example geocode_nowhereville :
  let w := answering 200 (PDict [("results", PList [])]) in
  let args := {| args_lat := None; args_lon := None;
                 args_city := Some "Nowhereville";
                 args_start := "2024-01-01"; args_end := "2024-01-02";
                 args_no_cache := false |} in
  main w args =
  ([], Uncaught (RuntimeError "No geocoding results for city: Nowhereville")).
Proof. reflexivity. Qed.

(** * Further properties *)

(** ** [geocode_city] *)

Lemma geocode_city_results (w : World) (city : string) (results : pyobj) :
  geocode_response w city results ->
  geocode_city w city =
  if negb (truthy results) then Raise (no_geocoding_results city)
  else
    loc <- py_first results ;;
    vlat <- py_item loc "latitude" ;;
    flat <- py_float w vlat ;;
    vlon <- py_item loc "longitude" ;;
    flon <- py_float w vlon ;;
    Ok (flat, flon).
Proof.
  intros (resp & data & Hget & Hst & Hjs & Hres). unfold geocode_city.
  rewrite Hget. cbn [bind]. rewrite Hst. cbn [Z.eqb Pos.eqb negb].
  rewrite Hjs. cbn [bind]. rewrite Hres. reflexivity.
Qed.

Lemma geocode_response_answering (body : pyobj) (city : string) (results : pyobj) :
  py_get body "results" PNone = inr results ->
  geocode_response (answering 200 body) city results.
Proof. intros H. do 2 eexists. repeat split; try reflexivity. exact H. Qed.

(** X1: a status other than 200 from the geocoding endpoint raises a
    RuntimeError whose message carries the status and the body text. *)
Theorem geocode_request_failed (w : World) (city : string) (resp : Response) :
  requests_get w false GEOCODE_URL [("name", ParStr city); ("count", ParInt 1)]
    = inr resp ->
  status_code resp <> 200 ->
  geocode_city w city =
  inl (RuntimeError ("Geocoding request failed: "
                     ++ str_of_int (status_code resp) ++ " " ++ text resp)).
Proof.
  intros Hget Hst. unfold geocode_city. rewrite Hget. cbn [bind].
  apply Z.eqb_neq in Hst. rewrite Hst. reflexivity.
Qed.

(** A 404 with the body text [body]. *)
Lemma geocode_request_failed_witness :
  geocode_city (answering 404 london) "London" =
  inl (RuntimeError "Geocoding request failed: 404 body").
Proof.
  apply (geocode_request_failed (answering 404 london) "London"
           (mkResponse 404 "body" (inr london))); [reflexivity | discriminate].
Defined.

Lemma py_first_raises (v : pyobj) (e : PyExc) :
  py_first v = inl e -> e = IndexError \/ e = KeyError \/ e = TypeError.
Proof.
  destruct v as [| | | |s|l|d]; cbn; try (intros E; inversion E; auto).
  - destruct s; inversion E; auto.
  - destruct l; inversion E; auto.
Qed.

Lemma py_item_raises (v : pyobj) (k : string) (e : PyExc) :
  py_item v k = inl e -> e = KeyError \/ e = TypeError.
Proof.
  destruct v; cbn; try (intros E; inversion E; auto).
  destruct (dict_lookup d k); inversion E; auto.
Qed.

Lemma py_float_raises (w : World) (v : pyobj) (e : PyExc) :
  py_float w v = inl e -> e = ValueError \/ e = TypeError \/ e = OverflowError.
Proof.
  unfold py_float, to_float, float_of_int.
  destruct v; cbn;
    repeat match goal with
    | |- context [match ?c with _ => _ end] => destruct c; cbn
    end;
    intros E; inversion E; auto.
Qed.

(** X2: on a 200 answer, [geocode_city] raises its no-results error
    exactly when the [results] entry is falsy: absent, null or empty. *)
Theorem geocode_no_results_iff (w : World) (city : string) (results : pyobj) :
  geocode_response w city results ->
  (geocode_city w city = inl (no_geocoding_results city) <->
   truthy results = false) /\
  (series results ->
   (geocode_city w city = inl (no_geocoding_results city) <->
    absent_or_empty results)).
Proof.
  intros Hresp. rewrite (geocode_city_results _ _ _ Hresp).
  assert (Hiff : (if negb (truthy results)
                  then Raise (no_geocoding_results city)
                  else loc <- py_first results ;;
                       vlat <- py_item loc "latitude" ;;
                       flat <- py_float w vlat ;;
                       vlon <- py_item loc "longitude" ;;
                       flon <- py_float w vlon ;;
                       Ok (flat, flon)) = inl (no_geocoding_results city)
                 <-> truthy results = false).
  { destruct (truthy results); cbn [negb]; split; try reflexivity;
      try discriminate.
    intros E. exfalso.
    destruct (py_first results) as [e|loc] eqn:F; cbn [bind] in E.
    { inversion E; subst.
      destruct (py_first_raises _ _ F) as [H | [H | H]]; discriminate. }
    destruct (py_item loc "latitude") as [e|vlat] eqn:I1; cbn [bind] in E.
    { inversion E; subst.
      destruct (py_item_raises _ _ _ I1) as [H | H]; discriminate. }
    destruct (py_float w vlat) as [e|flat] eqn:F1; cbn [bind] in E.
    { inversion E; subst.
      destruct (py_float_raises _ _ _ F1) as [H | [H | H]]; discriminate. }
    destruct (py_item loc "longitude") as [e|vlon] eqn:I2; cbn [bind] in E.
    { inversion E; subst.
      destruct (py_item_raises _ _ _ I2) as [H | H]; discriminate. }
    destruct (py_float w vlon) as [e|flon] eqn:F2; cbn [bind] in E.
    { inversion E; subst.
      destruct (py_float_raises _ _ _ F2) as [H | [H | H]]; discriminate. }
    discriminate. }
  split; [exact Hiff |].
  intros S. rewrite Hiff. now apply series_falsy.
Qed.

(** An empty list of results for Nowhereville. *)
Lemma geocode_no_results_iff_witness :
  geocode_city (answering 200 (PDict [("results", PList [])])) "Nowhereville"
  = inl (RuntimeError "No geocoding results for city: Nowhereville").
Proof.
  destruct (geocode_no_results_iff
              (answering 200 (PDict [("results", PList [])])) "Nowhereville"
              (PList [])) as [H _].
  - now apply geocode_response_answering.
  - apply H. reflexivity.
Defined.

(** X3: on a 200 answer, [geocode_city] returns a pair exactly when the
    first result has a latitude and a longitude that [float] accepts, and
    the pair is made of these two; the results after the first play no
    role. *)
Theorem geocode_first_result (w : World) (city : string) (results : pyobj) :
  geocode_response w city results ->
  (forall flat flon : float,
     geocode_city w city = inr (flat, flon) <->
     exists loc vlat vlon,
       truthy results = true /\ py_first results = inr loc /\
       py_item loc "latitude" = inr vlat /\ py_float w vlat = inr flat /\
       py_item loc "longitude" = inr vlon /\ py_float w vlon = inr flon) /\
  (forall loc rest, results = PList (loc :: rest) ->
     geocode_city w city =
       (vlat <- py_item loc "latitude" ;;
        flat <- py_float w vlat ;;
        vlon <- py_item loc "longitude" ;;
        flon <- py_float w vlon ;;
        Ok (flat, flon))).
Proof.
  intros Hresp. rewrite (geocode_city_results _ _ _ Hresp). split.
  - intros flat flon. split.
    + destruct (truthy results); cbn [negb]; [| discriminate].
      destruct (py_first results) as [e|loc] eqn:F; cbn [bind]; [discriminate |].
      destruct (py_item loc "latitude") as [e|vlat] eqn:I1; cbn [bind];
        [discriminate |].
      destruct (py_float w vlat) as [e|la] eqn:F1; cbn [bind]; [discriminate |].
      destruct (py_item loc "longitude") as [e|vlon] eqn:I2; cbn [bind];
        [discriminate |].
      destruct (py_float w vlon) as [e|lo] eqn:F2; cbn [bind]; [discriminate |].
      intros E. inversion E; subst. exists loc, vlat, vlon. repeat split; auto.
    + intros (loc & vlat & vlon & T & F & I1 & F1 & I2 & F2).
      rewrite T, F. cbn [negb bind]. rewrite I1. cbn [bind]. rewrite F1.
      cbn [bind]. rewrite I2. cbn [bind]. rewrite F2. reflexivity.
  - intros loc rest ->. reflexivity.
Qed.

(** London, first of one result. *)
Lemma geocode_first_result_witness :
  geocode_city (answering 200 london) "London" = inr (51.5, -0.125)%float.
Proof.
  destruct (geocode_first_result (answering 200 london) "London"
              (PList [PDict [("name", PStr "London");
                             ("latitude", PFloat 51.5);
                             ("longitude", PFloat (-0.125))]])) as [H _].
  - now apply geocode_response_answering.
  - apply H. do 3 eexists. repeat split; reflexivity.
Defined.

(** X4: a first result that is an object without a latitude, or with a
    latitude [float] accepts but without a longitude, raises KeyError. *)
Theorem geocode_missing_coordinate (w : World) (city : string)
    (d : list (string * pyobj)) (rest : list pyobj) :
  geocode_response w city (PList (PDict d :: rest)) ->
  dict_lookup d "latitude" = None \/
  (exists vlat flat, dict_lookup d "latitude" = Some vlat /\
                     py_float w vlat = inr flat /\
                     dict_lookup d "longitude" = None) ->
  geocode_city w city = inl KeyError.
Proof.
  intros Hresp H. rewrite (geocode_city_results _ _ _ Hresp).
  cbn [truthy negb py_first]. unfold Ok. cbn [bind py_item].
  destruct H as [H | (vlat & flat & H1 & H2 & H3)].
  - rewrite H. reflexivity.
  - rewrite H1. unfold Ok. cbn [bind]. rewrite H2. cbn [bind]. rewrite H3.
    reflexivity.
Qed.

(** A result with a latitude only. *)
Lemma geocode_missing_coordinate_witness :
  geocode_city
    (answering 200 (PDict [("results", PList [PDict [("latitude", PFloat 51.5)]])]))
    "London" = inl KeyError.
Proof.
  apply (geocode_missing_coordinate _ "London" [("latitude", PFloat 51.5)] []).
  - now apply geocode_response_answering.
  - right. exists (PFloat 51.5), 51.5%float. repeat split; reflexivity.
Defined.

(** ** The paths of [main] *)

(** X5: when the city is geocoded and the geocoder raises, the exception
    leaves [main]: nothing is printed, no status is returned (so not 2),
    and the process ends with status 1.  The outcome is the same in every
    world whose geocoder raises that exception, whatever its weather
    endpoint answers. *)
Theorem geocode_failure_uncaught (w : World) (args : Args) (name : string)
    (e : PyExc) :
  args_city args = Some name -> name <> "" ->
  geocode_city w name = inl e ->
  main w args = ([], Uncaught e) /\
  script_status w (Namespace args) = 1 /\
  forall w', geocode_city w' name = inl e -> main w' args = main w args.
Proof.
  intros Hcity Hname He.
  assert (M : forall w0, geocode_city w0 name = inl e ->
                         main w0 args = ([], Uncaught e)).
  { intros w0 H0. unfold main, resolve_location. rewrite Hcity.
    destruct name; [congruence |]. rewrite H0. reflexivity. }
  split; [now apply M |]. split.
  - cbn [script_status]. rewrite (M w He). reflexivity.
  - intros w' H'. now rewrite (M w' H'), (M w He).
Qed.

(** Nowhereville, next to usable coordinates. *)
Lemma geocode_failure_uncaught_witness :
  main (answering 200 (PDict [("results", PList [])]))
       (with_coordinates
          {| args_lat := None; args_lon := None; args_city := Some "Nowhereville";
             args_start := "2024-01-01"; args_end := "2024-01-02";
             args_no_cache := false |} (Some 51.5%float) (Some 0%float))
  = ([], Uncaught (RuntimeError "No geocoding results for city: Nowhereville")).
Proof.
  apply (geocode_failure_uncaught
           (answering 200 (PDict [("results", PList [])])) _ "Nowhereville").
  - reflexivity.
  - discriminate.
  - reflexivity.
Defined.

(** X6: without a city name (none, or the empty string) and with both
    --lat and --lon, the two are the location in every world: no prompt is
    printed, and neither the terminal nor the geocoding endpoint can change
    or fail the result; the fetch is made for them with the cache on unless
    --no-cache. *)
Theorem coordinates_used_directly (w : World) (args : Args) (lat lon : float) :
  args_city args = None \/ args_city args = Some "" ->
  args_lat args = Some lat -> args_lon args = Some lon ->
  resolve_location w args = ([], inr (lat, lon)) /\
  (forall w', resolve_location w' args = resolve_location w args) /\
  main w args =
    main_after_fetch []
      (fetch_daily_mean_temperature w lat lon (args_start args) (args_end args)
         (negb (args_no_cache args))).
Proof.
  intros Hcity Hlat Hlon.
  assert (R : forall w0, resolve_location w0 args = ([], inr (lat, lon))).
  { intros w0. unfold resolve_location. rewrite Hlat, Hlon.
    destruct Hcity as [-> | ->]; reflexivity. }
  split; [apply R |]. split; [intros w'; now rewrite !R |].
  unfold main. rewrite R. reflexivity.
Qed.

(** --city with an empty value, --lat 51.5 --lon -0.125. *)
Lemma coordinates_used_directly_witness :
  resolve_location fair_weather empty_city = ([], inr (51.5, -0.125)%float).
Proof.
  apply (coordinates_used_directly fair_weather empty_city 51.5 (-0.125)).
  - now right.
  - reflexivity.
  - reflexivity.
Defined.

(** X7: without a city name and with --lat or --lon missing, [main]
    prompts once and geocodes what [strip] makes of the answer, whatever
    the other coordinate is; an exception of [input] or of the geocoder
    leaves [main]. *)
Theorem prompt_when_coordinate_missing (w : World) (args : Args) :
  args_city args = None \/ args_city args = Some "" ->
  args_lat args = None \/ args_lon args = None ->
  resolve_location w args =
    ([Prompt prompt_text],
     city <- input w prompt_text ;; geocode_city w (str_strip w city)) /\
  (forall e, input w prompt_text = inl e ->
             main w args = ([Prompt prompt_text], Uncaught e)) /\
  (forall line e, input w prompt_text = inr line ->
                  geocode_city w (str_strip w line) = inl e ->
                  main w args = ([Prompt prompt_text], Uncaught e)).
Proof.
  intros Hcity Hmiss.
  assert (R : resolve_location w args =
              ([Prompt prompt_text],
               city <- input w prompt_text ;; geocode_city w (str_strip w city))).
  { unfold resolve_location.
    destruct Hcity as [-> | ->];
      destruct Hmiss as [-> | ->]; try reflexivity;
      destruct (args_lat args); reflexivity. }
  split; [exact R |]. split.
  - intros e He. unfold main. rewrite R, He. reflexivity.
  - intros line e Hl He. unfold main. rewrite R, Hl. cbn [bind]. rewrite He.
    reflexivity.
Qed.

(** --lat alone; the user types London between blanks. *)
Lemma prompt_when_coordinate_missing_witness :
  resolve_location (typing "  London  " london) no_location =
    ([Prompt prompt_text], inr (51.5, -0.125)%float).
Proof.
  destruct (prompt_when_coordinate_missing (typing "  London  " london) no_location)
    as [H _].
  - now left.
  - now right.
  - exact H.
Defined.

Lemma round2_all_numeric (l : list pyobj) :
  round2_all l =
  if forallb numeric l
  then round2_all l
  else inl TypeError.
Proof.
  induction l as [|x l IH]; [reflexivity |].
  cbn [forallb round2_all]. unfold numeric at 1.
  destruct (as_number x); cbn [andb]; [| reflexivity].
  destruct (forallb numeric l); [reflexivity |].
  rewrite IH. reflexivity.
Qed.

Lemma round2_all_ok (l : list pyobj) :
  forallb numeric l = true -> exists r, round2_all l = inr r.
Proof.
  induction l as [|x l IH]; cbn [forallb round2_all]; [now eexists |].
  unfold numeric at 1. destruct (as_number x); [| discriminate].
  cbn [andb]. intros H. destruct (IH H) as [r ->]. now eexists.
Qed.

Lemma round2_all_floats (xs : list float) :
  round2_all (map PFloat xs) = inr (map (fun x => PrRound2 (NFloat x)) xs).
Proof.
  induction xs as [|x xs IH]; [reflexivity |].
  cbn [map round2_all as_number]. rewrite IH. reflexivity.
Qed.

Lemma report_outcome (ev : list Event) (stats : Stats)
    (tmax tmin dates : list pyobj) :
  dates <> [] ->
  snd (report ev stats tmax tmin dates) =
  if forallb numeric tmax && forallb numeric tmin
  then Return 0 else Uncaught TypeError.
Proof.
  intros Hd. unfold report. destruct dates as [|d0 ds]; [congruence |].
  rewrite (round2_all_numeric tmax).
  destruct (forallb numeric tmax) eqn:Tx; cbn [andb]; [| reflexivity].
  destruct (round2_all_ok _ Tx) as [rmax ->].
  rewrite (round2_all_numeric tmin).
  destruct (forallb numeric tmin) eqn:Tn; [| reflexivity].
  destruct (round2_all_ok _ Tn) as [rmin ->]. reflexivity.
Qed.

Lemma report_trace (ev : list Event) (stats : Stats)
    (tmax tmin dates : list pyobj) :
  exists tail, fst (report ev stats tmax tmin dates) = ev ++ tail.
Proof.
  unfold report. destruct dates as [|d0 ds].
  - exists []. now rewrite app_nil_r.
  - destruct (round2_all tmax); [eexists; reflexivity |].
    destruct (round2_all tmin); cbn [fst]; rewrite <- ?app_assoc;
      eexists; reflexivity.
Qed.

Lemma main_after_ok_fetch (w : World) (args : Args) (ev : list Event)
    (lat lon : float) (means : list float) (lmax lmin ldates : list pyobj) :
  resolve_location w args = (ev, inr (lat, lon)) ->
  fetch_daily_mean_temperature w lat lon (args_start args) (args_end args)
    (negb (args_no_cache args)) = inr (means, lmax, lmin, ldates) ->
  snd (main w args) =
    (if forallb numeric lmax && forallb numeric lmin
     then Return 0 else Uncaught TypeError) /\
  exists tail, fst (main w args) = ev ++ Call_compute_stats means :: tail.
Proof.
  intros Hloc F. rewrite (main_resolved _ _ _ _ _ Hloc), F.
  pose proof (fetch_ok_nonempty _ _ _ _ _ _ _ _ _ _ F) as Hm.
  unfold fetch_daily_mean_temperature in F.
  destruct (requests_get _ _ _ _) as [|resp]; [discriminate |]. cbn [bind] in F.
  destruct (negb _); [discriminate |].
  destruct (json resp) as [|data]; [discriminate |]. cbn [bind] in F.
  destruct (py_get data _ _) as [|daily]; [discriminate |]. cbn [bind] in F.
  destruct (py_get daily "temperature_2m_max" _) as [|tmax]; [discriminate |].
  cbn [bind] in F.
  destruct (py_get daily "temperature_2m_min" _) as [|tmin]; [discriminate |].
  cbn [bind] in F.
  destruct (py_get daily "time" _) as [|dates]; [discriminate |]. cbn [bind] in F.
  apply daily_series_ok in F. destruct F as (_ & _ & _ & _ & _ & Hd & _ & _).
  destruct means as [|m ms]; [congruence |].
  unfold main_after_fetch. cbn [List.length Nat.eqb].
  rewrite compute_stats_nonempty. split.
  - now apply report_outcome.
  - match goal with |- context [report ?e ?s lmax lmin ldates] =>
      destruct (report_trace e s lmax lmin ldates) as [tail ->] end.
    exists tail. now rewrite <- app_assoc.
Qed.

(** X8: after a fetch that returned, [main] ends with status 0 when every
    element of the returned max and min series is a number, and with an
    uncaught TypeError otherwise; [compute_stats] has been called on the
    means by then. *)
Theorem exit_after_fetch (w : World) (args : Args) (ev : list Event)
    (lat lon : float) (means : list float) (lmax lmin ldates : list pyobj) :
  resolve_location w args = (ev, inr (lat, lon)) ->
  fetch_daily_mean_temperature w lat lon (args_start args) (args_end args)
    (negb (args_no_cache args)) = inr (means, lmax, lmin, ldates) ->
  snd (main w args) =
    (if forallb numeric lmax && forallb numeric lmin
     then Return 0 else Uncaught TypeError) /\
  exists tail, fst (main w args) = ev ++ Call_compute_stats means :: tail.
Proof. apply main_after_ok_fetch. Qed.

(** A second maximum that is null: one mean, then the crash. *)
Lemma exit_after_fetch_witness :
  snd (main null_tail_weather by_coordinates) = Uncaught TypeError /\
  exists tail, fst (main null_tail_weather by_coordinates)
               = [] ++ Call_compute_stats [15.5]%float :: tail.
Proof.
  apply (exit_after_fetch null_tail_weather by_coordinates [] 51.5 (-0.125)
           [15.5]%float [PFloat 20.5; PNone] [PFloat 10.5]
           [PStr "2024-01-01"; PStr "2024-01-02"]); reflexivity.
Defined.

Lemma main_exit_cases (w : World) (args : Args) :
  snd (main w args) = Return 0 \/
  (snd (main w args) = Return 2 /\
   exists ev lat lon e,
     resolve_location w args = (ev, inr (lat, lon)) /\
     fetch_daily_mean_temperature w lat lon (args_start args) (args_end args)
       (negb (args_no_cache args)) = inl e) \/
  exists e, snd (main w args) = Uncaught e.
Proof.
  destruct (resolve_location w args) as [ev [e | [lat lon]]] eqn:R.
  - right. right. exists e. unfold main. rewrite R. reflexivity.
  - destruct (fetch_daily_mean_temperature w lat lon (args_start args)
                (args_end args) (negb (args_no_cache args)))
      as [e | [[[means lmax] lmin] ldates]] eqn:F.
    + right. left. split.
      * rewrite (main_resolved _ _ _ _ _ R), F. reflexivity.
      * now exists ev, lat, lon, e.
    + destruct (main_after_ok_fetch _ _ _ _ _ _ _ _ _ R F) as [H _].
      rewrite H. destruct (_ && _); [now left | right; right; now eexists].
Qed.

(** X9: [main] returns 2 exactly when the location was resolved and the
    fetcher raised. *)
Theorem exit_2_iff_fetch_raised (w : World) (args : Args) :
  snd (main w args) = Return 2 <->
  exists ev lat lon e,
    resolve_location w args = (ev, inr (lat, lon)) /\
    fetch_daily_mean_temperature w lat lon (args_start args) (args_end args)
      (negb (args_no_cache args)) = inl e.
Proof.
  split.
  - intros H. destruct (main_exit_cases w args) as [E | [[_ E] | [e E]]].
    + rewrite E in H. discriminate.
    + exact E.
    + rewrite E in H. discriminate.
  - intros (ev & lat & lon & e & R & F).
    rewrite (main_resolved _ _ _ _ _ R), F. reflexivity.
Qed.


Lemma same_number_refl (x : float) : same_number x x.
Proof.
  unfold same_number, is_nan. destruct (x =? x)%float; [now left | now right].
Qed.

Lemma fold_selects (f : float -> float -> float) :
  (forall a b, f a b = a \/ f a b = b) ->
  forall xs acc, In (fold_left f xs acc) (acc :: xs).
Proof.
  intros Hf. induction xs as [|x xs IH]; intros acc; cbn [fold_left].
  - now left.
  - destruct (IH (f acc x)) as [E | H]; [| right; now right].
    rewrite <- E. destruct (Hf acc x) as [-> | ->]; [now left | right; now left].
Qed.

Lemma maximum_selects (a b : float) : np.maximum a b = a \/ np.maximum a b = b.
Proof. unfold np.maximum. destruct (_ || _); auto. Qed.

Lemma minimum_selects (a b : float) : np.minimum a b = a \/ np.minimum a b = b.
Proof. unfold np.minimum. destruct (_ || _); auto. Qed.

(** X11: for a 200 answer with non-empty arrays of doubles and a non-empty
    array of dates, [main] returns 0 after calling [compute_stats] once on
    the means and printing eight lines: the first and the last date with
    the number of means, the max and the min series in full, the highest,
    lowest and average number of [compute_stats] (the highest and the
    lowest taken from the means; the sign of a zero is left open), the
    Fahrenheit series and the number of days above 20. *)
Theorem report_of_well_formed (w : World) (args : Args) (ev : list Event)
    (lat lon : float) (xs ys : list float) (d0 : pyobj) (ds : list pyobj) :
  resolve_location w args = (ev, inr (lat, lon)) ->
  daily_response w lat lon (args_start args) (args_end args)
    (negb (args_no_cache args))
    (PList (map PFloat xs)) (PList (map PFloat ys)) (PList (d0 :: ds)) ->
  xs <> [] -> ys <> [] ->
  let means := map (fun p => ((fst p + snd p) / 2)%float) (combine xs ys) in
  exists (stats : Stats) (highest lowest average : float),
    compute_stats means = inr stats /\
    same_number highest (highest_c stats) /\ In highest means /\
    same_number lowest (lowest_c stats) /\ In lowest means /\
    same_number average (average_c stats) /\
    main w args =
    (ev ++
     [ Call_compute_stats means;
       Stdout [PrFormat [PrStr "Dates: "; PrObj d0; PrStr " to ";
                         PrObj (last (d0 :: ds) d0); PrStr " -- ";
                         PrInt (Z.of_nat (Nat.min (List.length xs)
                                                  (List.length ys)));
                         PrStr " days"]];
       Stdout [PrStr "Daily max (C):";
               PrList (map (fun x => PrRound2 (NFloat x)) xs)];
       Stdout [PrStr "Daily min (C):";
               PrList (map (fun x => PrRound2 (NFloat x)) ys)];
       Stdout [PrStr "Highest Temperature (C):"; PrFloat highest];
       Stdout [PrStr "Lowest Temperature (C):"; PrFloat lowest];
       Stdout [PrStr "Average Temperature (C):"; PrFloat average];
       Stdout [PrStr "Temperatures in Fahrenheit:";
               PrList (map (fun t => PrRound2 (NFloat (t * 9 / 5 + 32)%float))
                           means)];
       Stdout [PrStr "Number of days with Temperature above 20C:";
               PrInt (Z.of_nat (List.length
                                  (filter (fun t => (20 <? t)%float) means)))] ],
     Return 0).
Proof.
  intros Hloc Hresp Hx Hy means.
  rewrite (main_resolved _ _ _ _ _ Hloc).
  rewrite (fetch_daily_series _ _ _ _ _ _ _ _ _ Hresp).
  rewrite daily_series_floats by (auto; discriminate). fold means.
  assert (Hlen : List.length means = Nat.min (List.length xs) (List.length ys))
    by (unfold means; now rewrite length_map, length_combine).
  rewrite <- Hlen.
  destruct means as [|m ms] eqn:Em.
  { destruct xs, ys; cbn in Hlen; congruence. }
  exists {| highest_c := fold_left np.maximum ms m;
            lowest_c := fold_left np.minimum ms m;
            average_c := np.mean (m :: ms);
            fahrenheit := map (fun t => (t * 9 / 5 + 32)%float) (m :: ms);
            days_above_20c :=
              np.count_true (map (fun t => (20 <? t)%float) (m :: ms));
            count := Z.of_nat (List.length (m :: ms)) |}.
  exists (fold_left np.maximum ms m), (fold_left np.minimum ms m),
         (np.mean (m :: ms)).
  cbn [highest_c lowest_c average_c].
  split; [apply compute_stats_nonempty |].
  split; [apply same_number_refl |].
  split; [apply (fold_selects _ maximum_selects) |].
  split; [apply same_number_refl |].
  split; [apply (fold_selects _ minimum_selects) |].
  split; [apply same_number_refl |].
  unfold main_after_fetch. cbn [List.length Nat.eqb].
  rewrite compute_stats_nonempty. unfold report.
  rewrite !round2_all_floats. rewrite <- !app_assoc.
  cbn [highest_c lowest_c average_c fahrenheit days_above_20c count].
  rewrite count_true_filter, map_map. reflexivity.
Qed.

(** [fair_weather]: two days, exit status 0. *)
Lemma report_of_well_formed_witness :
  snd (main fair_weather by_coordinates) = Return 0.
Proof.
  destruct (report_of_well_formed fair_weather by_coordinates [] 51.5 (-0.125)
              [20.5; 18]%float [10.5; 9]%float
              (PStr "2024-01-01") [PStr "2024-01-02"])
    as (stats & h & l & a & _ & _ & _ & _ & _ & _ & M).
  - reflexivity.
  - now apply daily_response_answering.
  - discriminate.
  - discriminate.
  - rewrite M. reflexivity.
Defined.

(** ** What a returned tuple guarantees *)

Lemma zip_means_nth (xs : list pyobj) : forall ys ms,
  zip_means xs ys = inr ms ->
  forall i, (i < List.length ms)%nat ->
    daily_mean (nth i xs PNone) (nth i ys PNone) = inr (nth i ms 0%float).
Proof.
  induction xs as [|x xs IH]; intros [|y ys] ms; cbn [zip_means];
    try (intros E; inversion E; cbn; intros; lia).
  destruct (daily_mean x y) as [|m] eqn:D; cbn [bind]; [discriminate |].
  destruct (zip_means xs ys) as [|ms'] eqn:Z; cbn [bind]; [discriminate |].
  intros E. inversion E; subst. intros [|i] Hi; cbn [nth].
  - exact D.
  - apply (IH _ _ Z). cbn in Hi. lia.
Qed.

(** X12: a tuple the fetcher returns comes from a 200 answer whose three
    series are non-empty; the returned series are non-empty, the means are
    as many as the shorter of the max and min series, and the mean at every
    index is [float((mx + mn) / 2.0)] of the pair at that index, whatever
    numbers (int, bool, float) the arrays hold. *)
Theorem fetch_ok_inv (w : World) (lat lon : float) (start end_ : string)
    (use_cache : bool) (means : list float) (lmax lmin ldates : list pyobj) :
  fetch_daily_mean_temperature w lat lon start end_ use_cache
    = inr (means, lmax, lmin, ldates) ->
  (exists tmax tmin dates,
     daily_response w lat lon start end_ use_cache tmax tmin dates /\
     py_iter tmax = inr lmax /\ py_iter tmin = inr lmin /\
     py_iter dates = inr ldates) /\
  lmax <> [] /\ lmin <> [] /\ ldates <> [] /\
  List.length means = Nat.min (List.length lmax) (List.length lmin) /\
  forall i, (i < List.length means)%nat ->
    daily_mean (nth i lmax PNone) (nth i lmin PNone) = inr (nth i means 0%float).
Proof.
  unfold fetch_daily_mean_temperature.
  destruct (requests_get _ _ _ _) as [|resp] eqn:G; [discriminate |]. cbn [bind].
  destruct (status_code resp =? 200) eqn:S; cbn [negb]; [| discriminate].
  destruct (json resp) as [|data] eqn:J; [discriminate |]. cbn [bind].
  destruct (py_get data _ _) as [|daily] eqn:D; [discriminate |]. cbn [bind].
  destruct (py_get daily "temperature_2m_max" _) as [|tmax] eqn:Gx;
    [discriminate |]. cbn [bind].
  destruct (py_get daily "temperature_2m_min" _) as [|tmin] eqn:Gn;
    [discriminate |]. cbn [bind].
  destruct (py_get daily "time" _) as [|dates] eqn:Gd; [discriminate |].
  cbn [bind]. intros E.
  destruct (daily_series_ok _ _ _ _ _ _ _ E)
    as (Ix & In_ & Id & Nx & Nn & Nd & Z & _).
  split.
  - exists tmax, tmin, dates. split; [| auto].
    exists resp, data, daily. apply Z.eqb_eq in S. repeat split; auto.
  - repeat split; auto.
    + now apply zip_means_length.
    + now apply zip_means_nth.
Qed.

(** [mixed_weather]: two means out of ints, a float and a bool. *)
Lemma fetch_ok_inv_witness :
  fetch_daily_mean_temperature mixed_weather 51.5 (-0.125)
    "2024-01-01" "2024-01-02" true
    = inr ([15.5; 9.5]%float, [PInt 21; PFloat 18; PNone],
           [PInt 10; PBool true], [PStr "2024-01-01"; PStr "2024-01-02"]) /\
  List.length [15.5; 9.5]%float = 2%nat.
Proof.
  split; [reflexivity |].
  destruct (fetch_ok_inv mixed_weather
              51.5 (-0.125) "2024-01-01" "2024-01-02" true
              [15.5; 9.5]%float [PInt 21; PFloat 18; PNone]
              [PInt 10; PBool true] [PStr "2024-01-01"; PStr "2024-01-02"]
              eq_refl) as (_ & _ & _ & _ & H & _).
  exact H.
Defined.

(** X13: badly shaped 200 answers.  A JSON body that is not an object, or
    whose [daily] entry is not an object, raises AttributeError; an object
    without a [daily] entry raises the missing-data error. *)
Theorem fetch_bad_shape (w : World) (lat lon : float) (start end_ : string)
    (use_cache : bool) (resp : Response) (data : pyobj) :
  requests_get w use_cache URL (weather_params lat lon start end_) = inr resp ->
  status_code resp = 200 ->
  json resp = inr data ->
  ((forall d, data <> PDict d) ->
   fetch_daily_mean_temperature w lat lon start end_ use_cache
     = inl AttributeError) /\
  (forall d, data = PDict d -> dict_lookup d "daily" = None ->
   fetch_daily_mean_temperature w lat lon start end_ use_cache
     = inl no_daily_data) /\
  (forall d v, data = PDict d -> dict_lookup d "daily" = Some v ->
   (forall dd, v <> PDict dd) ->
   fetch_daily_mean_temperature w lat lon start end_ use_cache
     = inl AttributeError).
Proof.
  intros G S J. unfold fetch_daily_mean_temperature.
  rewrite G. cbn [bind]. rewrite S. cbn [Z.eqb Pos.eqb negb]. rewrite J.
  cbn [bind]. repeat split.
  - intros H. destruct data; try reflexivity. now destruct (H d).
  - intros d -> L. cbn [py_get]. rewrite L. reflexivity.
  - intros d v -> L H. cbn [py_get]. rewrite L. unfold Ok. cbn [bind].
    destruct v; try reflexivity. now destruct (H d0).
Qed.

(** The geocoder's answer served for a forecast: no [daily] entry. *)
Lemma fetch_bad_shape_witness :
  fetch_daily_mean_temperature (answering 200 london) 51.5 (-0.125)
    "2024-01-01" "2024-01-02" true = inl no_daily_data.
Proof.
  destruct (fetch_bad_shape (answering 200 london) 51.5 (-0.125)
              "2024-01-01" "2024-01-02" true
              (mkResponse 200 "body" (inr london)) london
              eq_refl eq_refl eq_refl) as (_ & H & _).
  apply (H _ eq_refl). reflexivity.
Defined.

(** ** More on [compute_stats] *)

(** X14: [compute_stats] raises exactly on the empty sequence, and what it
    raises there is ValueError. *)
Theorem compute_stats_raises_iff (temps : list float) (e : PyExc) :
  compute_stats temps = inl e <-> temps = [] /\ e = ValueError.
Proof.
  split.
  - destruct temps as [|x xs].
    + cbn. intros E. inversion E. auto.
    + rewrite compute_stats_nonempty. discriminate.
  - intros [-> ->]. reflexivity.
Qed.

Lemma count_true_bounds (mask : list bool) :
  0 <= np.count_true mask <= Z.of_nat (List.length mask).
Proof.
  unfold np.count_true. rewrite count_true_acc.
  pose proof (filter_length_le (fun b : bool => b) mask). lia.
Qed.

(** X15: on a non-empty sequence, [count] is the length of the sequence,
    the Fahrenheit series has that length, and [days_above_20c] lies
    between 0 and [count]. *)
Theorem compute_stats_counts (temps : list float) :
  temps <> [] ->
  exists s, compute_stats temps = inr s /\
    count s = Z.of_nat (List.length temps) /\
    0 < count s /\
    Z.of_nat (List.length (fahrenheit s)) = count s /\
    0 <= days_above_20c s <= count s.
Proof.
  destruct temps as [|x xs]; [congruence |]. intros _.
  eexists. split; [apply compute_stats_nonempty |].
  cbn [count fahrenheit days_above_20c].
  split; [reflexivity |]. split; [cbn [List.length]; lia |].
  split; [now rewrite length_map |].
  pose proof (count_true_bounds (map (fun t => (20 <? t)%float) (x :: xs))) as H.
  rewrite length_map in H. exact H.
Qed.

(** Four days, one above 20. *)
Lemma compute_stats_counts_witness :
  exists s, compute_stats [18; 20; 22.5; 15]%float = inr s /\
    count s = 4 /\
    0 < count s /\
    Z.of_nat (List.length (fahrenheit s)) = count s /\
    0 <= days_above_20c s <= count s.
Proof.
  apply (compute_stats_counts [18; 20; 22.5; 15]%float). discriminate.
Defined.

(** ** NaN in the series *)

Section NaN.

Local Open Scope float_scope.

Lemma SFcompare_refl (x : spec_float) :
  x <> S754_nan -> SFcompare x x = Some Eq.
Proof.
  destruct x as [s|s| |s m e]; cbn; try congruence; intros _.
  - now destruct s.
  - rewrite Z.compare_refl.
    change (PosDef.Pos.compare_cont Eq m m) with (Pos.compare m m).
    rewrite Pos.compare_refl. now destruct s.
Qed.

Lemma is_nan_spec (x : float) : is_nan x = true <-> Prim2SF x = S754_nan.
Proof.
  unfold is_nan. rewrite FloatAxioms.eqb_spec. unfold SFeqb. split.
  - intros H. destruct (Prim2SF x) eqn:E; try reflexivity;
      rewrite SFcompare_refl in H by discriminate; discriminate.
  - intros ->. reflexivity.
Qed.

Lemma leb_nan_l (x y : float) : is_nan x = true -> (x <=? y) = false.
Proof.
  rewrite is_nan_spec, FloatAxioms.leb_spec. intros ->. reflexivity.
Qed.

Lemma leb_nan_r (x y : float) : is_nan y = true -> (x <=? y) = false.
Proof.
  rewrite is_nan_spec, FloatAxioms.leb_spec. intros ->.
  unfold SFleb, SFcompare. now destruct (Prim2SF x).
Qed.

Lemma add_nan_l (x y : float) : is_nan x = true -> is_nan (x + y) = true.
Proof.
  rewrite !is_nan_spec, FloatAxioms.add_spec. intros ->. reflexivity.
Qed.

Lemma add_nan_r (x y : float) : is_nan y = true -> is_nan (x + y) = true.
Proof.
  rewrite !is_nan_spec, FloatAxioms.add_spec. intros ->.
  unfold SF64add, SFadd. now destruct (Prim2SF x) as [[]|[]| |].
Qed.

Lemma div_nan_l (x y : float) : is_nan x = true -> is_nan (x / y) = true.
Proof.
  rewrite !is_nan_spec, FloatAxioms.div_spec. intros ->. reflexivity.
Qed.

Lemma maximum_nan (a b : float) :
  is_nan a = true \/ is_nan b = true -> is_nan (np.maximum a b) = true.
Proof.
  unfold np.maximum. destruct (is_nan b) eqn:B.
  - rewrite orb_true_r. auto.
  - intros [H | H]; [| discriminate].
    rewrite (leb_nan_l a b H). exact H.
Qed.

Lemma minimum_nan (a b : float) :
  is_nan a = true \/ is_nan b = true -> is_nan (np.minimum a b) = true.
Proof.
  unfold np.minimum. destruct (is_nan b) eqn:B.
  - rewrite orb_true_r. auto.
  - intros [H | H]; [| discriminate].
    rewrite (leb_nan_r b a H). exact H.
Qed.

Lemma fold_nan (f : float -> float -> float) :
  (forall a b, is_nan a = true \/ is_nan b = true -> is_nan (f a b) = true) ->
  forall l acc, is_nan acc = true \/ has_nan l ->
                is_nan (fold_left f l acc) = true.
Proof.
  intros Hf. induction l as [|x l IH]; intros acc H; cbn [fold_left].
  - destruct H as [H | H]; [exact H | inversion H].
  - apply IH. destruct H as [H | H].
    + left. apply Hf. now left.
    + inversion H; subst; [left; apply Hf; now right | now right].
Qed.

Lemma add_nan (a b : float) :
  is_nan a = true \/ is_nan b = true -> is_nan (a + b) = true.
Proof. intros [H | H]; [now apply add_nan_l | now apply add_nan_r]. Qed.

Ltac split_nan :=
  unfold has_nan in *;
  repeat match goal with
  | H : Exists _ (_ :: _) |- _ => apply Exists_cons in H; destruct H as [H | H]
  | H : Exists _ [] |- _ => inversion H
  | H : _ \/ _ |- _ => destruct H as [H | H]
  end.

Ltac find_nan :=
  first [ assumption
        | apply add_nan_l; assumption
        | apply add_nan_r; assumption ].

Ltac place_nan :=
  unfold has_nan;
  first [ apply Exists_cons_hd; find_nan
        | apply Exists_cons_tl; place_nan ].

Lemma add_lanes_nan (n : nat) : forall a r,
  (List.length a <= n)%nat ->
  has_nan (lanes_list r) \/ has_nan a ->
  has_nan (lanes_list (fst (np.add_lanes r a))) \/ has_nan (snd (np.add_lanes r a)).
Proof.
  induction n as [|n IH]; intros a r Hlen H.
  - destruct a; [exact H | cbn in Hlen; lia].
  - destruct a as [|a0 [|a1 [|a2 [|a3 [|a4 [|a5 [|a6 [|a7 a']]]]]]]];
      try exact H.
    destruct r as [[[[[[[r0 r1] r2] r3] r4] r5] r6] r7].
    cbn [np.add_lanes]. apply IH; [cbn in Hlen; lia |].
    cbn [lanes_list] in *.
    split_nan; try (left; place_nan); right; exact H.
Qed.

Lemma tree_nan (r : np.lanes) :
  has_nan (lanes_list r) ->
  let '(r0, r1, r2, r3, r4, r5, r6, r7) := r in
  is_nan (((r0 + r1) + (r2 + r3)) + ((r4 + r5) + (r6 + r7))) = true.
Proof.
  destruct r as [[[[[[[r0 r1] r2] r3] r4] r5] r6] r7]. cbn [lanes_list].
  intros H. split_nan; auto 6 using add_nan_l, add_nan_r.
Qed.

Lemma sum_block_nan (a : list float) :
  has_nan a -> is_nan (np.sum_block a) = true.
Proof.
  intros H.
  destruct a as [|a0 [|a1 [|a2 [|a3 [|a4 [|a5 [|a6 [|a7 a']]]]]]]];
    try (apply (fold_nan _ add_nan); now right).
  cbn [np.sum_block].
  pose proof (add_lanes_nan (List.length a') a'
                (a0, a1, a2, a3, a4, a5, a6, a7) (le_n _)) as L.
  destruct (np.add_lanes (a0, a1, a2, a3, a4, a5, a6, a7) a') as [r' rest].
  cbn [fst snd] in L.
  assert (L' : has_nan (lanes_list r') \/ has_nan rest).
  { apply L. cbn [lanes_list]. split_nan; try (left; place_nan). right; exact H. }
  pose proof (tree_nan r') as T.
  destruct r' as [[[[[[[r0 r1] r2] r3] r4] r5] r6] r7].
  apply (fold_nan _ add_nan). destruct L' as [L' | L']; [left; now apply T | now right].
Qed.

Lemma pairwise_sum_nan (depth : nat) : forall a,
  has_nan a -> is_nan (np.pairwise_sum depth a) = true.
Proof.
  induction depth as [|d IH]; intros a H; cbn [np.pairwise_sum];
    destruct (List.length a <=? 128)%nat; try now apply sum_block_nan.
  set (n2 := (List.length a / 2 - (List.length a / 2) mod 8)%nat).
  rewrite <- (firstn_skipn n2 a) in H. apply Exists_app in H.
  apply add_nan. destruct H as [H | H]; [left | right]; now apply IH.
Qed.

(** X16: a NaN anywhere in the sequence makes [highest_c], [lowest_c] and
    [average_c] NaN. *)
Theorem compute_stats_nan (temps : list float) :
  has_nan temps ->
  exists s, compute_stats temps = inr s /\
    is_nan (highest_c s) = true /\
    is_nan (lowest_c s) = true /\
    is_nan (average_c s) = true.
Proof.
  intros H. destruct temps as [|x xs]; [inversion H |].
  eexists. split; [apply compute_stats_nonempty |].
  cbn [highest_c lowest_c average_c].
  assert (H' : is_nan x = true \/ has_nan xs)
    by (inversion H; subst; auto).
  split; [now apply (fold_nan _ maximum_nan) |].
  split; [now apply (fold_nan _ minimum_nan) |].
  unfold np.mean, np.sum. apply div_nan_l, add_nan_r.
  now apply pairwise_sum_nan.
Qed.

(** A NaN on the second of two days. *)
Lemma compute_stats_nan_witness :
  exists s, compute_stats [18; nan] = inr s /\
    is_nan (highest_c s) = true /\
    is_nan (lowest_c s) = true /\
    is_nan (average_c s) = true.
Proof.
  apply (compute_stats_nan [18; nan]).
  apply Exists_cons_tl, Exists_cons_hd. reflexivity.
Defined.

End NaN.

(** ** What the fetcher can raise *)

(** X17: an exception of the fetcher is the one [requests.get] raised, the
    request-failed error of a status other than 200, the one [resp.json()]
    raised, an AttributeError (a body or a [daily] entry that is no
    object), the missing-data error, or a TypeError or OverflowError of the
    means; it is never a KeyError, an IndexError, a ValueError or a
    ZeroDivisionError of its own. *)
Theorem fetch_raises_only (w : World) (lat lon : float) (start end_ : string)
    (use_cache : bool) (e : PyExc) :
  fetch_daily_mean_temperature w lat lon start end_ use_cache = inl e ->
  requests_get w use_cache URL (weather_params lat lon start end_) = inl e \/
  exists resp,
    requests_get w use_cache URL (weather_params lat lon start end_) = inr resp /\
    ((status_code resp <> 200 /\ e = request_failed resp) \/
     (status_code resp = 200 /\
      (json resp = inl e \/ e = AttributeError \/ e = no_daily_data \/
       e = TypeError \/ e = OverflowError))).
Proof.
  unfold fetch_daily_mean_temperature.
  destruct (requests_get _ _ _ _) as [e0|resp]; cbn [bind].
  { intros E. inversion E. now left. }
  intros E. right. exists resp. split; [reflexivity |].
  destruct (status_code resp =? 200) eqn:S; cbn [negb] in E.
  2:{ left. apply Z.eqb_neq in S. inversion E. auto. }
  right. apply Z.eqb_eq in S. split; [exact S |].
  destruct (json resp) as [e1|data]; cbn [bind] in E.
  { inversion E. now left. }
  right.
  assert (A : forall v k dflt e', py_get v k dflt = inl e' -> e' = AttributeError).
  { intros v k dflt e'. destruct v; cbn; intros X; inversion X; reflexivity. }
  destruct (py_get data _ _) as [e2|daily] eqn:D; cbn [bind] in E.
  { inversion E; subst. left. eapply A; eauto. }
  destruct (py_get daily "temperature_2m_max" _) as [e3|tmax] eqn:Gx;
    cbn [bind] in E.
  { inversion E; subst. left. eapply A; eauto. }
  destruct (py_get daily "temperature_2m_min" _) as [e4|tmin] eqn:Gn;
    cbn [bind] in E.
  { inversion E; subst. left. eapply A; eauto. }
  destruct (py_get daily "time" _) as [e5|dates] eqn:Gd; cbn [bind] in E.
  { inversion E; subst. left. eapply A; eauto. }
  right. apply daily_series_raises in E.
  destruct E as [[-> _] | [[-> | ->] _]]; auto.
Qed.

(** The status 500 of [server_error]. *)
Lemma fetch_raises_only_witness :
  exists resp,
    requests_get server_error true URL
      (weather_params 51.5 (-0.125) "2024-01-01" "2024-01-02") = inr resp /\
    status_code resp <> 200.
Proof.
  destruct (fetch_raises_only server_error 51.5 (-0.125)
              "2024-01-01" "2024-01-02" true
              (RuntimeError "Open-Meteo request failed: 500 body") eq_refl)
    as [H | (resp & G & [[S _] | [S _]])].
  - discriminate H.
  - exists resp. split; [exact G | exact S].
  - exfalso. inversion G; subst. discriminate S.
Defined.
